(** * Standby replication commit hook and database provider of dolt

    A shallow embedding of
    [go/libraries/doltcore/sqle/cluster/commithook.go] (module [Cluster])
    and of [DropDatabase] in
    [go/libraries/doltcore/sqle/database_provider.go] (module [Sqle]).

    The hook's fields live in the record [commithook]; what its calls do to
    the rest of the process (channels made and closed, condition-variable
    signals, contexts cancelled, callbacks run) is recorded in [runtime].
    Every method that runs under [h.mu] is a function on the pair of both;
    [attemptReplicate], which gives the mutex up around its remote calls, is
    split at the points where it takes and releases the mutex, and the worker
    goroutine is a transition system over these pieces. *)

From Stdlib Require Import ZArith NArith String Ascii List Bool Lia.
From stdpp Require Import base decidable option list strings gmap.

Local Open Scope string_scope.

Module Cluster.

(** ** Data *)

(** Modelled from the spec: the type [Role] is declared outside the files at
    hand; the hook compares it with [RolePrimary], [RoleStandby] and
    [RoleDetectedBrokenConfig] only, and the data model gives exactly these
    three values. *)
Inductive Role := RolePrimary | RoleStandby | RoleDetectedBrokenConfig.

#[global] Instance Role_eq_dec : EqDecision Role.
Proof. solve_decision. Defined.

(** Modelled from the spec: the type [hash.Hash] is declared outside the
    files at hand; a head is a "20-byte opaque hash", here the number its
    bytes spell, and the zero head [hash.Hash{}] is 0. The hook only copies
    and compares hashes. *)
Abbreviation Hash := N (only parsing).
Definition zeroHash : Hash := 0%N.

(** [time.Time] in nanoseconds; [time.Time{}] is 0. *)
Abbreviation Time := Z (only parsing).
Definition zeroTime : Time := 0%Z.
Definition Second : Z := 1000000000%Z.

(** A [chan struct{}] is named by the number of the [make] that made it, a
    cancel function by the number of the context it cancels, a
    [*doltdb.DoltDB] and a [waitNotify] callback by a handle. An [error] is
    its message. *)
Abbreviation Chan := nat (only parsing).
Abbreviation CancelFunc := nat (only parsing).
Abbreviation DoltDB := nat (only parsing).
Abbreviation Callback := nat (only parsing).
Abbreviation error := string (only parsing).

Record commithook := mkCommithook {
  remotename : string;
  dbname : string;
  shutdown : bool;
  nextHead : Hash;
  lastPushedHead : Hash;
  nextPushAttempt : Time;
  nextHeadIncomingTime : Time;
  lastSuccess : Time;
  currentError : option string;
  cancelReplicate : option CancelFunc;
  waitNotify : option Callback;
  successChs : list Chan;
  fastFailReplicationWait : bool;
  role : Role;
  destDB : option DoltDB
}.

Record runtime := mkRuntime {
  closedChs : list Chan;        (* channels closed, latest first *)
  doubleClose : bool;           (* a closed channel was closed again *)
  madeChs : nat;                (* number of make(chan struct{}) so far *)
  signals : nat;                (* number of h.cond.Signal() so far *)
  cancelled : list CancelFunc;  (* cancel functions invoked, latest first *)
  madeCtxs : nat;               (* number of contexts derived so far *)
  notified : list Callback      (* callbacks run, latest first *)
}.

Definition world : Type := commithook * runtime.

(** *** Field updates *)

Definition set_shutdown (v : bool) (h : commithook) : commithook :=
  mkCommithook (remotename h) (dbname h) v (nextHead h) (lastPushedHead h)
    (nextPushAttempt h) (nextHeadIncomingTime h) (lastSuccess h) (currentError h)
    (cancelReplicate h) (waitNotify h) (successChs h) (fastFailReplicationWait h)
    (role h) (destDB h).

Definition set_nextHead (v : Hash) (h : commithook) : commithook :=
  mkCommithook (remotename h) (dbname h) (shutdown h) v (lastPushedHead h)
    (nextPushAttempt h) (nextHeadIncomingTime h) (lastSuccess h) (currentError h)
    (cancelReplicate h) (waitNotify h) (successChs h) (fastFailReplicationWait h)
    (role h) (destDB h).

Definition set_lastPushedHead (v : Hash) (h : commithook) : commithook :=
  mkCommithook (remotename h) (dbname h) (shutdown h) (nextHead h) v
    (nextPushAttempt h) (nextHeadIncomingTime h) (lastSuccess h) (currentError h)
    (cancelReplicate h) (waitNotify h) (successChs h) (fastFailReplicationWait h)
    (role h) (destDB h).

Definition set_nextPushAttempt (v : Time) (h : commithook) : commithook :=
  mkCommithook (remotename h) (dbname h) (shutdown h) (nextHead h) (lastPushedHead h)
    v (nextHeadIncomingTime h) (lastSuccess h) (currentError h)
    (cancelReplicate h) (waitNotify h) (successChs h) (fastFailReplicationWait h)
    (role h) (destDB h).

Definition set_nextHeadIncomingTime (v : Time) (h : commithook) : commithook :=
  mkCommithook (remotename h) (dbname h) (shutdown h) (nextHead h) (lastPushedHead h)
    (nextPushAttempt h) v (lastSuccess h) (currentError h)
    (cancelReplicate h) (waitNotify h) (successChs h) (fastFailReplicationWait h)
    (role h) (destDB h).

Definition set_lastSuccess (v : Time) (h : commithook) : commithook :=
  mkCommithook (remotename h) (dbname h) (shutdown h) (nextHead h) (lastPushedHead h)
    (nextPushAttempt h) (nextHeadIncomingTime h) v (currentError h)
    (cancelReplicate h) (waitNotify h) (successChs h) (fastFailReplicationWait h)
    (role h) (destDB h).

Definition set_currentError (v : option string) (h : commithook) : commithook :=
  mkCommithook (remotename h) (dbname h) (shutdown h) (nextHead h) (lastPushedHead h)
    (nextPushAttempt h) (nextHeadIncomingTime h) (lastSuccess h) v
    (cancelReplicate h) (waitNotify h) (successChs h) (fastFailReplicationWait h)
    (role h) (destDB h).

Definition set_cancelReplicate (v : option CancelFunc) (h : commithook) : commithook :=
  mkCommithook (remotename h) (dbname h) (shutdown h) (nextHead h) (lastPushedHead h)
    (nextPushAttempt h) (nextHeadIncomingTime h) (lastSuccess h) (currentError h)
    v (waitNotify h) (successChs h) (fastFailReplicationWait h)
    (role h) (destDB h).

Definition set_waitNotify (v : option Callback) (h : commithook) : commithook :=
  mkCommithook (remotename h) (dbname h) (shutdown h) (nextHead h) (lastPushedHead h)
    (nextPushAttempt h) (nextHeadIncomingTime h) (lastSuccess h) (currentError h)
    (cancelReplicate h) v (successChs h) (fastFailReplicationWait h)
    (role h) (destDB h).

Definition set_successChs (v : list Chan) (h : commithook) : commithook :=
  mkCommithook (remotename h) (dbname h) (shutdown h) (nextHead h) (lastPushedHead h)
    (nextPushAttempt h) (nextHeadIncomingTime h) (lastSuccess h) (currentError h)
    (cancelReplicate h) (waitNotify h) v (fastFailReplicationWait h)
    (role h) (destDB h).

Definition set_fastFailReplicationWait (v : bool) (h : commithook) : commithook :=
  mkCommithook (remotename h) (dbname h) (shutdown h) (nextHead h) (lastPushedHead h)
    (nextPushAttempt h) (nextHeadIncomingTime h) (lastSuccess h) (currentError h)
    (cancelReplicate h) (waitNotify h) (successChs h) v
    (role h) (destDB h).

Definition set_role (v : Role) (h : commithook) : commithook :=
  mkCommithook (remotename h) (dbname h) (shutdown h) (nextHead h) (lastPushedHead h)
    (nextPushAttempt h) (nextHeadIncomingTime h) (lastSuccess h) (currentError h)
    (cancelReplicate h) (waitNotify h) (successChs h) (fastFailReplicationWait h)
    v (destDB h).

Definition set_destDB (v : option DoltDB) (h : commithook) : commithook :=
  mkCommithook (remotename h) (dbname h) (shutdown h) (nextHead h) (lastPushedHead h)
    (nextPushAttempt h) (nextHeadIncomingTime h) (lastSuccess h) (currentError h)
    (cancelReplicate h) (waitNotify h) (successChs h) (fastFailReplicationWait h)
    (role h) v.

(** *** The runtime's primitives *)

(** [h.cond.Signal()] *)
Definition Signal (rt : runtime) : runtime :=
  mkRuntime (closedChs rt) (doubleClose rt) (madeChs rt) (S (signals rt))
    (cancelled rt) (madeCtxs rt) (notified rt).

(** [make(chan struct{})] *)
Definition makeChan (rt : runtime) : Chan * runtime :=
  (madeChs rt,
   mkRuntime (closedChs rt) (doubleClose rt) (S (madeChs rt)) (signals rt)
     (cancelled rt) (madeCtxs rt) (notified rt)).

Definition isClosed (ch : Chan) (rt : runtime) : bool :=
  bool_decide (ch ∈ closedChs rt).

(** [close(ch)]; closing a closed channel is a run-time panic in Go, which
    [doubleClose] records. *)
Definition close (ch : Chan) (rt : runtime) : runtime :=
  mkRuntime (ch :: closedChs rt) (doubleClose rt || isClosed ch rt) (madeChs rt)
    (signals rt) (cancelled rt) (madeCtxs rt) (notified rt).

(** [for _, ch := range chs { close(ch) }] *)
Definition closeAll (chs : list Chan) (rt : runtime) : runtime :=
  fold_left (fun r ch => close ch r) chs rt.

(** [context.WithCancel(ctx)] and [context.WithTimeout(ctx, d)]: a new
    context, named by its number, whose cancel function is returned. *)
Definition withCancel (rt : runtime) : CancelFunc * runtime :=
  (madeCtxs rt,
   mkRuntime (closedChs rt) (doubleClose rt) (madeChs rt) (signals rt)
     (cancelled rt) (S (madeCtxs rt)) (notified rt)).

(** Calling a cancel function. *)
Definition cancel (c : CancelFunc) (rt : runtime) : runtime :=
  mkRuntime (closedChs rt) (doubleClose rt) (madeChs rt) (signals rt)
    (c :: cancelled rt) (madeCtxs rt) (notified rt).

(** Calling a [waitNotify] callback. *)
Definition notify (f : Callback) (rt : runtime) : runtime :=
  mkRuntime (closedChs rt) (doubleClose rt) (madeChs rt) (signals rt)
    (cancelled rt) (madeCtxs rt) (f :: notified rt).

(** ** Constants *)

Definition errDestDBRootHashMoved : error :=
  "cluster/commithook: standby replication: destination database root hash moved during our write, while it is assumed we are the only writer.".

Definition errDetectedBrokenConfigStr : string :=
  "error: more than one server was configured as primary in the same epoch. this server has stopped accepting writes. choose a primary in the cluster and call dolt_assume_cluster_role() on servers in the cluster to start replication at a higher epoch".

(** ** [newCommitHook] *)

Definition newCommitHook (remotename dbname : string) (role : Role) : commithook :=
  mkCommithook remotename dbname false zeroHash zeroHash zeroTime zeroTime zeroTime
    None None None [] false role None.

Definition newRuntime : runtime := mkRuntime [] false 0 0 [] 0 [].

(** ** Predicates called with [h.mu] locked *)

Definition isCaughtUp (h : commithook) : bool :=
  if negb (bool_decide (role h = RolePrimary)) then true
  else if (nextHead h =? zeroHash)%N then false
  else (nextHead h =? lastPushedHead h)%N.

Definition shouldReplicate (now : Time) (h : commithook) : bool :=
  if isCaughtUp h then false
  else (nextPushAttempt h =? zeroTime)%Z || (nextPushAttempt h <? now)%Z.

Definition primaryNeedsInit (h : commithook) : bool :=
  bool_decide (role h = RolePrimary) && (nextHead h =? zeroHash)%N.

(** ** Methods that hold [h.mu] from entry to return *)

(** [setRole]: [defer h.mu.Unlock()] makes the body one critical section. *)
Definition setRole (r : Role) (w : world) : world :=
  let '(h, rt) := w in
  let h := set_currentError None h in
  let h := set_nextHead zeroHash h in
  let h := set_lastPushedHead zeroHash h in
  let h := set_lastSuccess zeroTime h in
  let h := set_nextPushAttempt zeroTime h in
  let h := set_role r h in
  let '(h, rt) :=
    match cancelReplicate h with
    | Some c => (set_cancelReplicate None h, cancel c rt)
    | None => (h, rt)
    end in
  let h :=
    if bool_decide (r = RoleDetectedBrokenConfig)
    then set_currentError (Some errDetectedBrokenConfigStr) h
    else h in
  (h, Signal rt).

Definition recordSuccessfulRemoteSrvCommit (now : Time) (w : world) : world :=
  let '(h, rt) := w in
  if negb (bool_decide (role h = RoleStandby)) then (h, rt)
  else (set_currentError None (set_lastSuccess now h), rt).

(** [setWaitNotify(f)]; [None] is the nil func. *)
Definition setWaitNotify (f : option Callback) (w : world) : bool * world :=
  let '(h, rt) := w in
  match f with
  | Some g =>
      match waitNotify h with
      | Some _ => (false, (h, rt))
      | None => (true, (set_waitNotify f h, notify g rt))
      end
  | None => (true, (set_waitNotify f h, rt))
  end.

(** [databaseWasDropped] takes no lock: [shutdown] is atomic. *)
Definition databaseWasDropped (w : world) : world :=
  let '(h, rt) := w in (set_shutdown true h, Signal rt).

Definition NotifyWaitFailed (w : world) : world :=
  let '(h, rt) := w in (set_fastFailReplicationWait true h, rt).

(** *** [Execute] *)

(** The three closures [Execute] can hand back as [waitF]. *)
Inductive waitF :=
| waitNil                                (* the nil func *)
| waitCircuitBreaker (remotename dbname : string)
                                         (* returns the circuit-breaker error *)
| waitSuccessCh (successCh : Chan).      (* selects on successCh and ctx.Done() *)

Definition circuitBreakerError (remotename dbname : string) : error :=
  "circuit breaker for replication to " ++ remotename ++ "/" ++ dbname
  ++ " is open. this commit did not necessarily replicate successfully.".

(** What a call [waitF(ctx)] can do in a runtime [rt], where [ctxErr] is
    [ctx.Err()]: the values it can return; none means it blocks. The nil
    func is never called by a correct caller. *)
Definition callWaitF (f : waitF) (ctxErr : option error) (rt : runtime)
  : list (option error) :=
  match f with
  | waitNil => []
  | waitCircuitBreaker rn dn => [Some (circuitBreakerError rn dn)]
  | waitSuccessCh ch =>
      (if isClosed ch rt then [None] else [])
      ++ match ctxErr with Some e => [Some e] | None => [] end
  end.

(** [Execute(ctx, ds, db)], where [root] is what [cs.Root(ctx)] answers. *)
Definition Execute (root : Hash + error) (now : Time) (w : world)
  : (waitF * option error) * world :=
  match root with
  | inr err => ((waitNil, Some err), w)
  | inl root =>
      let '(h, rt) := w in
      if negb (bool_decide (role h = RolePrimary)) then ((waitNil, None), (h, rt))
      else
        let '(h, rt) :=
          if negb (root =? nextHead h)%N then
            let h := set_nextHeadIncomingTime now h in
            let h := set_nextHead root h in
            let h := set_nextPushAttempt zeroTime h in
            (h, Signal rt)
          else (h, rt) in
        if negb (isCaughtUp h) then
          if fastFailReplicationWait h then
            ((waitCircuitBreaker (remotename h) (dbname h), None), (h, rt))
          else
            let '(h, rt) :=
              if (length (successChs h) =? 0)%nat then
                let '(ch, rt) := makeChan rt in
                (set_successChs (successChs h ++ [ch]) h, rt)
              else (h, rt) in
            match successChs h with
            | successCh :: _ => ((waitSuccessCh successCh, None), (h, rt))
            | [] => ((waitNil, None), (h, rt))   (* not reached: the slice is non-empty *)
            end
        else ((waitNil, None), (h, rt))
  end.

(** ** [attemptReplicate] *)

(** The locals [attemptReplicate] keeps while [h.mu] is released. *)
Record attempt := mkAttempt {
  toPush : Hash;
  incomingTime : Time;
  localDestDB : option DoltDB;    (* the local [destDB] *)
  stolenChs : list Chan           (* the local [successChs] *)
}.

(** Entry to [h.mu.Unlock()]. *)
Definition attemptReplicate_begin (w : world) : attempt * world :=
  let '(h, rt) := w in
  let a := mkAttempt (nextHead h) (nextHeadIncomingTime h) (destDB h) (successChs h) in
  let '(c, rt) := withCancel rt in
  (a, (set_successChs [] (set_cancelReplicate (Some c) h), rt)).

(** The two deferred functions, in the order they run at return. *)
Definition deferred_restoreSuccessChs (successChs' : list Chan) (h : commithook)
  : commithook :=
  if negb (length successChs' =? 0)%nat
  then set_successChs (successChs h ++ successChs') h
  else h.

Definition deferred_cancelReplicate (w : world) : world :=
  let '(h, rt) := w in
  match cancelReplicate h with
  | Some c => (set_cancelReplicate None h, cancel c rt)
  | None => (set_cancelReplicate None h, rt)
  end.

(** [destDB == nil] and [h.destDBF(ctx)] failed with [err]: the branch that
    returns early. It writes [currentError] before it takes the mutex. *)
Definition attemptReplicate_destDBFailed (err : error) (now : Time) (a : attempt)
  (w : world) : world :=
  let '(h, rt) := w in
  let h := set_currentError
             (Some ("could not replicate to standby: error fetching destDB: " ++ err)) h in
  let h := if (toPush a =? nextHead h)%N
           then set_nextPushAttempt (now + Second)%Z h else h in
  let h := set_cancelReplicate None h in
  deferred_cancelReplicate (deferred_restoreSuccessChs (stolenChs a) h, rt).

(** [destDB == nil] and [h.destDBF(ctx)] answered [d]. *)
Definition attemptReplicate_fetched (d : DoltDB) (a : attempt) (w : world)
  : attempt * world :=
  let '(h, rt) := w in
  (mkAttempt (toPush a) (incomingTime a) (Some d) (stolenChs a),
   (set_destDB (Some d) h, rt)).

(** What the destination answers to the calls made without the mutex. *)
Record remote := mkRemote {
  PullChunks : option error;
  Rebase : option error;
  Root : Hash + error;
  Commit : Hash -> Hash -> bool * option error   (* Commit(ctx, last, expected) *)
}.

(** The value of [err] when the mutex is taken again. *)
Definition pushErr (r : remote) (toPush : Hash) : option error :=
  match PullChunks r with
  | Some e => Some e
  | None =>
      match Rebase r with
      | Some e => Some e
      | None =>
          match Root r with
          | inr e => Some e
          | inl curRootHash =>
              match Commit r toPush curRootHash with
              | (_, Some e) => Some e
              | (ok, None) => if negb ok then Some errDestDBRootHashMoved else None
              end
          end
      end
  end.

(** From the last [h.mu.Lock()] to the return, deferred functions included. *)
Definition attemptReplicate_finish (err : option error) (now : Time) (a : attempt)
  (w : world) : world :=
  let '(h, rt) := w in
  let '(h, rt, successChs') :=
    if bool_decide (role h = RolePrimary) then
      match err with
      | None =>
          let h := set_currentError None h in
          let h := set_lastPushedHead (toPush a) h in
          let h := set_lastSuccess (incomingTime a) h in
          let h := set_nextPushAttempt zeroTime h in
          if negb (length (stolenChs a) =? 0)%nat
          then (h, closeAll (stolenChs a) rt, [])
          else (h, rt, stolenChs a)
      | Some e =>
          let h := set_currentError
                     (Some ("failed to commit chunks on destDB: " ++ e)) h in
          let h := if (toPush a =? nextHead h)%N
                   then set_nextPushAttempt (now + Second)%Z h else h in
          (h, rt, stolenChs a)
      end
    else (h, rt, stolenChs a) in
  deferred_cancelReplicate (deferred_restoreSuccessChs successChs' h, rt).

(** One whole call during which no other goroutine takes the mutex. *)
Definition attemptReplicate (destDBF : DoltDB + error) (r : remote) (now : Time)
  (w : world) : world :=
  let '(a, w) := attemptReplicate_begin w in
  match localDestDB a, destDBF with
  | None, inr err => attemptReplicate_destDBFailed err now a w
  | None, inl d =>
      let '(a, w) := attemptReplicate_fetched d a w in
      attemptReplicate_finish (pushErr r (toPush a)) now a w
  | Some _, _ => attemptReplicate_finish (pushErr r (toPush a)) now a w
  end.

(** ** [attemptHeartbeat] *)

(** Entry to [h.mu.Unlock()]; [None] when it returns at one of its guards. *)
Definition attemptHeartbeat_begin (w : world) : option (Hash * DoltDB * world) :=
  let '(h, rt) := w in
  if negb (bool_decide (role h = RolePrimary)) then None
  else
    let head := lastPushedHead h in
    if (head =? zeroHash)%N then None
    else
      match destDB h with
      | None => None
      | Some d =>
          let '(c, rt) := withCancel rt in
          Some (head, d, (set_cancelReplicate (Some c) h, rt))
      end.

(** From [h.mu.Lock()] to the return; the answer of [cs.Commit] is dropped. *)
Definition attemptHeartbeat_finish (w : world) : world :=
  deferred_cancelReplicate w.

(** ** The [replicate] goroutine *)

(** Where the worker is. It holds [h.mu] exactly when it is [Running]. *)
Inductive worker :=
| NotStarted
| Running (shouldHeartbeat : bool)       (* at the loop test *)
| Pushing (a : attempt) (last : bool)    (* in attemptReplicate, mutex released;
                                            [last]: called after ctx.Err() *)
| Heartbeating (head : Hash) (d : DoltDB)  (* in attemptHeartbeat, mutex released *)
| Waiting (shouldHeartbeat : bool)       (* in h.cond.Wait() *)
| Exited.

(** The last branch of the loop body, up to [h.cond.Wait()]. *)
Definition replicate_idle (shouldHeartbeat : bool) (w : world) : worker * world :=
  let '(h, rt) := w in
  let rt := match waitNotify h with Some f => notify f rt | None => rt end in
  let caughtUp := isCaughtUp h in
  let '(h, rt) :=
    if negb (length (successChs h) =? 0)%nat && caughtUp
    then (set_fastFailReplicationWait false (set_successChs [] h),
          closeAll (successChs h) rt)
    else (h, rt) in
  if shouldHeartbeat then
    match attemptHeartbeat_begin (h, rt) with
    | Some (head, d, w) => (Heartbeating head d, w)
    | None => (Waiting true, (h, rt))
    end
  else (Waiting caughtUp, (h, rt)).

(** One pass of [for !h.shutdown.Load() { ... }], from the loop test to the
    next point where the worker gives up the mutex or loops. [ctxErr] tells
    whether [ctx.Err() != nil], [srcRoot] is the answer of [cs.Root(ctx)] on
    the source store. *)
Definition replicate_iter (ctxErr : bool) (srcRoot : Hash + error) (now : Time)
  (shouldHeartbeat : bool) (w : world) : worker * world :=
  let '(h, rt) := w in
  if shutdown h then (Exited, (h, rt))
  else if ctxErr then
    if shouldReplicate now h then
      let '(a, w) := attemptReplicate_begin (h, rt) in (Pushing a true, w)
    else (Exited, (h, rt))
  else if primaryNeedsInit h then
    let h := match srcRoot with
             | inl r => set_nextHead r h
             | inr _ => set_nextHead zeroHash h
             end in
    (Running shouldHeartbeat, (set_nextHeadIncomingTime now h, rt))
  else if shouldReplicate now h then
    let '(a, w) := attemptReplicate_begin (h, rt) in (Pushing a false, w)
  else replicate_idle shouldHeartbeat (h, rt).

(** ** The hook and its goroutines as a transition system *)

Record sys := mkSys { hk : world; wk : worker }.

Definition hook (s : sys) : commithook := fst (hk s).

(** The mutex is free unless the worker is between two of its releases. *)
Definition muFree (s : sys) : bool :=
  match wk s with Running _ => false | _ => true end.

Inductive action :=
(* the replicate goroutine *)
| Start                                             (* first h.mu.Lock() *)
| Iterate (ctxErr : bool) (srcRoot : Hash + error) (now : Time)
| DestDBFailed (err : error) (now : Time)
| DestDBFetched (d : DoltDB)
| RemoteDone (r : remote) (now : Time)
| HeartbeatDone
| Wake                                              (* h.cond.Wait() returns *)
(* calls from other goroutines *)
| CallExecute (root : Hash + error) (now : Time)
| CallSetRole (r : Role)
| CallNotifyWaitFailed
| CallRecordSuccessfulRemoteSrvCommit (now : Time)
| CallSetWaitNotify (f : option Callback)
| CallDatabaseWasDropped.

Definition afterAttempt (last : bool) : worker :=
  if last then Exited else Running false.

Definition locked (s : sys) (w : world) : option sys :=
  if muFree s then Some (mkSys w (wk s)) else None.

Definition step (act : action) (s : sys) : option sys :=
  match act, wk s with
  | Start, NotStarted => Some (mkSys (hk s) (Running false))
  | Iterate ctxErr srcRoot now, Running sh =>
      let '(k, w) := replicate_iter ctxErr srcRoot now sh (hk s) in Some (mkSys w k)
  | DestDBFailed err now, Pushing a last =>
      match localDestDB a with
      | None =>
          Some (mkSys (attemptReplicate_destDBFailed err now a (hk s)) (afterAttempt last))
      | Some _ => None
      end
  | DestDBFetched d, Pushing a last =>
      match localDestDB a with
      | None =>
          let '(a, w) := attemptReplicate_fetched d a (hk s) in
          Some (mkSys w (Pushing a last))
      | Some _ => None
      end
  | RemoteDone r now, Pushing a last =>
      match localDestDB a with
      | Some _ =>
          Some (mkSys (attemptReplicate_finish (pushErr r (toPush a)) now a (hk s))
                  (afterAttempt last))
      | None => None
      end
  | HeartbeatDone, Heartbeating _ _ =>
      Some (mkSys (attemptHeartbeat_finish (hk s)) (Waiting true))
  | Wake, Waiting sh => Some (mkSys (hk s) (Running sh))
  | CallExecute root now, _ => locked s (snd (Execute root now (hk s)))
  | CallSetRole r, _ => locked s (setRole r (hk s))
  | CallNotifyWaitFailed, _ => locked s (NotifyWaitFailed (hk s))
  | CallRecordSuccessfulRemoteSrvCommit now, _ =>
      locked s (recordSuccessfulRemoteSrvCommit now (hk s))
  | CallSetWaitNotify f, _ => locked s (snd (setWaitNotify f (hk s)))
  | CallDatabaseWasDropped, _ => Some (mkSys (databaseWasDropped (hk s)) (wk s))
  | _, _ => None
  end.

(** [run acts s]: the states passed through from [s], [s] first; [None] when
    some action is not enabled where it comes. *)
Fixpoint run (acts : list action) (s : sys) : option (list sys) :=
  match acts with
  | [] => Some [s]
  | act :: acts =>
      match step act s with
      | Some s' =>
          match run acts s' with
          | Some tr => Some (s :: tr)
          | None => None
          end
      | None => None
      end
  end.

(** The state [acts] lead to from [s]. *)
Definition runTo (acts : list action) (s : sys) : option sys :=
  match run acts s with Some tr => last tr | None => None end.

Definition isSetRole (act : action) : bool :=
  match act with CallSetRole _ => true | _ => false end.

(** A hook as [newCommitHook] makes it, before [Run]. *)
Definition initial (remotename dbname : string) (r : Role) : sys :=
  mkSys (newCommitHook remotename dbname r, newRuntime) NotStarted.

(** ** The channels committers wait on *)

(** The channels committers may be waiting on: those in [successChs] and
    those a push in flight has taken out of it. *)
Definition pending (s : sys) : list Chan :=
  (successChs (hook s)
   ++ match wk s with Pushing a _ => stolenChs a | _ => [] end)%list.

(** The channels of [l] are distinct, made and still open, and no channel
    was closed twice. *)
Definition chansOk (l : list Chan) (rt : runtime) : Prop :=
  NoDup l
  /\ (forall ch, ch ∈ l -> ch ∉ closedChs rt)
  /\ (forall ch, ch ∈ l -> ch < madeChs rt)
  /\ (forall ch, ch ∈ closedChs rt -> ch < madeChs rt)
  /\ doubleClose rt = false.

(** Two runtimes with the same channels. *)
Definition sameChans (rt rt' : runtime) : Prop :=
  closedChs rt' = closedChs rt /\ madeChs rt' = madeChs rt
  /\ doubleClose rt' = doubleClose rt.

(** The invariant of the whole system. *)
Definition sysOk (s : sys) : Prop := chansOk (pending s) (snd (hk s)).

(** ** Scenarios *)

(** A destination that takes every push. *)
Definition okRemote : remote :=
  mkRemote None None (inl zeroHash) (fun _ _ => (true, None)).

(** The head a push in flight has captured. *)
Definition inflight (k : worker) : option Hash :=
  match k with Pushing a _ => Some (toPush a) | _ => None end.

(** "Newer head during push": a commit of head 1, the worker starts to push
    it, and a commit of head 2 comes in while the push is in flight ... *)
Definition newerHead_before : list action :=
  [CallExecute (inl 1%N) 5%Z; Start; Iterate false (inl 0%N) 6%Z;
   CallExecute (inl 2%N) 7%Z].

(** ... then the push of head 1 succeeds and the worker starts on head 2. *)
Definition newerHead_after : list action :=
  [DestDBFetched 9; RemoteDone okRemote 8%Z; Iterate false (inl 0%N) 9%Z].

(** "Circuit breaker": a commit of head 1 waits, its wait fails and
    [NotifyWaitFailed] is called; the worker then pushes head 1 with success
    and goes idle. *)
Definition circuitBreaker_trace : list action :=
  [CallExecute (inl 1%N) 5%Z; CallNotifyWaitFailed; Start;
   Iterate false (inl 0%N) 6%Z; DestDBFetched 9; RemoteDone okRemote 8%Z;
   Iterate false (inl 0%N) 9%Z].

(** ** [status] *)

(** [time.Duration] is an [int64] of nanoseconds; [t.Sub(u)] is the
    difference, held at the ends of that range. *)
Definition minDuration : Z := (- 2 ^ 63)%Z.
Definition maxDuration : Z := (2 ^ 63 - 1)%Z.

Definition Sub (t u : Time) : Z :=
  let d := (t - u)%Z in
  if ((minDuration <=? d) && (d <=? maxDuration))%Z then d
  else if (t <? u)%Z then minDuration else maxDuration.

(** [status()]: the three results are pointers, [None] is nil. *)
Definition status (now : Time) (w : world)
  : option Z * option Time * option string :=
  let '(h, _) := w in
  let replicationLag :=
    if bool_decide (role h = RolePrimary) then
      if negb (lastPushedHead h =? zeroHash)%N then
        Some (if negb (nextHead h =? lastPushedHead h)%N
              then Sub now (lastSuccess h) else 0%Z)
      else None
    else None in
  let lastUpdate :=
    if negb (lastSuccess h =? zeroTime)%Z then Some (lastSuccess h) else None in
  (replicationLag, lastUpdate, currentError h).

(** ** Clocks *)

(** The reading of [time.Now()] an action carries, if it carries one. *)
Definition clockOf (act : action) : option Time :=
  match act with
  | Iterate _ _ now | DestDBFailed _ now | RemoteDone _ now
  | CallExecute _ now | CallRecordSuccessfulRemoteSrvCommit now => Some now
  | _ => None
  end.

(** The readings of [acts] never go back, starting at [t]. *)
Fixpoint monotone (t : Time) (acts : list action) : bool :=
  match acts with
  | [] => true
  | act :: acts =>
      match clockOf act with
      | Some now => (t <=? now)%Z && monotone now acts
      | None => monotone t acts
      end
  end.

(** ** Channels that are accounted for *)

(** Every channel made so far is in [l] or closed. *)
Definition tracked (l : list Chan) (rt : runtime) : Prop :=
  forall ch, ch < madeChs rt -> ch ∈ l \/ ch ∈ closedChs rt.

End Cluster.

Module Sqle.

(** ** Go's [strings] functions that [DropDatabase] uses *)

Definition Contains (s substr : string) : bool :=
  match String.index 0 substr s with Some _ => true | None => false end.

(** [strings.SplitN(s, sep, 2)] for a non-empty [sep]. *)
Definition SplitN2 (s sep : string) : list string :=
  match String.index 0 sep s with
  | Some i =>
      [String.substring 0 i s;
       String.substring (i + String.length sep) (String.length s - (i + String.length sep)) s]
  | None => [s]
  end.

Definition HasPrefix (s pre : string) : bool := String.prefix pre s.

(** [strings.ToLower] on the bytes of ASCII; other bytes are kept. *)
Definition lowerAscii (c : ascii) : ascii :=
  let n := nat_of_ascii c in
  if (65 <=? n)%nat && (n <=? 90)%nat then ascii_of_nat (n + 32) else c.

Fixpoint ToLower (s : string) : string :=
  match s with
  | EmptyString => EmptyString
  | String c s => String (lowerAscii c) (ToLower s)
  end.

(** ** Names of revision databases *)

(** Modelled from the spec: the constant [dsess.DbRevisionDelimiter] is
    declared outside the files at hand; a revision database is named
    [base/revspec]. *)
Definition DbRevisionDelimiter : string := "/".

(** Modelled from the spec: the function [dsess.SplitRevisionDbName] is
    declared outside the files at hand. A name [db/rev] "splits on the
    revision delimiter (first occurrence only)", as the provider's own
    [strings.SplitN(name, dsess.DbRevisionDelimiter, 2)] does; a name without
    the delimiter has no revision. *)
Definition SplitRevisionDbName (dbName : string) : string * string :=
  match SplitN2 dbName DbRevisionDelimiter with
  | [baseName; rev] => (baseName, rev)
  | _ => (dbName, "")
  end.

Definition formatDbMapKeyName (name : string) : string :=
  if negb (Contains name DbRevisionDelimiter) then ToLower name
  else
    match SplitN2 name DbRevisionDelimiter with
    | [dbName; revSpec] => ToLower dbName ++ DbRevisionDelimiter ++ revSpec
    | _ => ToLower name   (* not reached: the name holds the delimiter *)
    end.

(** ** The provider *)

(** A [dsess.SqlDatabase] in the map: a [Database], whose [ddb] the drop
    closes, or a value of another type, on which the type assertion
    [db.(Database)] panics. *)
Inductive SqlDatabase :=
| Database (name : string) (ddb : nat)
| OtherDatabase (name : string).

(** Modelled from the spec: the interface [filesys.Filesys] is declared
    outside the files at hand. Each database "lives in a directory containing
    a .dolt metadata subdirectory": a [Filesys] is the absolute path of its
    working directory, and the disk under all of them maps the absolute
    paths that exist to whether they are directories. *)
Abbreviation Filesys := string (only parsing).

Record DoltDatabaseProvider := mkProvider {
  dbLocations : gmap string string;
  databases : gmap string SqlDatabase;
  DropDatabaseHook : bool;            (* whether the hook is non-nil *)
  fs : Filesys;
  (* the process around the provider *)
  disk : gmap string bool;
  muLocks : nat;                      (* number of p.mu.Lock() so far *)
  closedDDBs : list nat;              (* ddb.Close() calls *)
  evicted : list string;              (* DeleteFromSingletonCache calls *)
  hookCalls : list string;            (* p.DropDatabaseHook calls *)
  invalidations : list string         (* invalidateDbStateInAllSessions calls *)
}.

(** The errors the calls out of the provider answer with. *)
Record answers := mkAnswers {
  closeErr : option string;
  dbLocAbsErr : option string;
  cacheErr : option string;
  fsAbsErr : option string;
  deleteErr : option string;
  invalidateErr : option string
}.

Inductive result :=
| Return (err : option string)
| Panic.                              (* a failed type assertion *)

(** Modelled from the spec: the constant [dbfactory.DoltDir], the name of
    the ".dolt metadata subdirectory", is declared outside the files at
    hand. *)
Definition DoltDir : string := ".dolt".

Definition ErrDatabaseNotFound (name : string) : string :=
  "database not found: " ++ name.

(** [fs.Exists(path)]: a path that starts with [/] is absolute. *)
Definition absPath (cwd path : string) : string :=
  if String.prefix "/" path then path else cwd ++ "/" ++ path.

Definition Exists (d : gmap string bool) (cwd path : string) : bool * bool :=
  match d !! absPath cwd path with
  | Some isDir => (true, isDir)
  | None => (false, false)
  end.

(** [fs.Delete(path, true)]: the path and all that is below it. *)
Definition Delete (d : gmap string bool) (cwd path : string) : gmap string bool :=
  let target := absPath cwd path in
  filter (fun kv => negb (String.eqb kv.1 target || String.prefix (target ++ "/") kv.1)) d.

Definition DropDatabase (ans : answers) (name : string) (p : DoltDatabaseProvider)
  : result * DoltDatabaseProvider :=
  let '(_, revision) := SplitRevisionDbName name in
  if negb (String.eqb revision "") then
    (Return (Some ("unable to drop revision database: " ++ name)), p)
  else
    let p := mkProvider (dbLocations p) (databases p) (DropDatabaseHook p) (fs p)
               (disk p) (S (muLocks p)) (closedDDBs p) (evicted p) (hookCalls p)
               (invalidations p) in
    let dbKey := formatDbMapKeyName name in
    match databases p !! dbKey with
    | Some (Database dbn ddb) =>
        let p := mkProvider (dbLocations p) (databases p) (DropDatabaseHook p) (fs p)
                   (disk p) (muLocks p) (ddb :: closedDDBs p) (evicted p) (hookCalls p)
                   (invalidations p) in
        match closeErr ans with
        | Some e => (Return (Some e), p)
        | None =>
        match dbLocations p !! dbKey with
        | None => (Return (Some (ErrDatabaseNotFound dbn)), p)
        | Some dbLoc =>
        match dbLocAbsErr ans with
        | Some e => (Return (Some e), p)
        | None =>
        let dropDbLoc := dbLoc in
        let p := mkProvider (dbLocations p) (databases p) (DropDatabaseHook p) (fs p)
                   (disk p) (muLocks p) (closedDDBs p)
                   ((dropDbLoc ++ "/.dolt/noms") :: evicted p) (hookCalls p)
                   (invalidations p) in
        match cacheErr ans with
        | Some e => (Return (Some e), p)
        | None =>
        let p := if DropDatabaseHook p
                 then mkProvider (dbLocations p) (databases p) (DropDatabaseHook p)
                        (fs p) (disk p) (muLocks p) (closedDDBs p) (evicted p)
                        (name :: hookCalls p) (invalidations p)
                 else p in
        match fsAbsErr ans with
        | Some e => (Return (Some e), p)
        | None =>
        let rootDbLoc := fs p in
        let dirToDelete : string + string :=
          if String.eqb rootDbLoc dropDbLoc then
            if negb (Exists (disk p) (fs p) DoltDir).1
            then inr (ErrDatabaseNotFound dbn)
            else inl DoltDir
          else
            match Exists (disk p) (fs p) dropDbLoc with
            | (false, _) => inr (ErrDatabaseNotFound dbn)
            | (true, false) =>
                inr ("unexpected error: " ++ dbKey ++ " exists but is not a directory")
            | (true, true) => inl dropDbLoc
            end in
        match dirToDelete with
        | inr e => (Return (Some e), p)
        | inl dirToDelete =>
        match deleteErr ans with
        | Some e => (Return (Some e), p)
        | None =>
        let derivativeNamePrefix := ToLower (dbKey ++ DbRevisionDelimiter) in
        let dbs := filter (fun kv => negb (HasPrefix (ToLower kv.1) derivativeNamePrefix))
                     (databases p) in
        let dbs := delete dbKey dbs in
        (Return (invalidateErr ans),
         mkProvider (dbLocations p) dbs (DropDatabaseHook p) (fs p)
           (Delete (disk p) (fs p) dirToDelete) (muLocks p) (closedDDBs p)
           (evicted p) (hookCalls p) (name :: invalidations p))
        end end end end end end end
    | _ => (Panic, p)
    end.

(** ** Scenarios *)

(** A provider that holds nothing, at [/srv]. *)
Definition emptyProvider : DoltDatabaseProvider :=
  mkProvider ∅ ∅ true "/srv" ∅ 0 [] [] [] [].

Definition noErrors : answers := mkAnswers None None None None None None.

End Sqle.

(** * Properties of the commit hook *)

Import Cluster.

Section CaughtUp.

Local Open Scope N_scope.

Lemma isCaughtUp_not_primary (h : commithook) :
  role h <> RolePrimary -> isCaughtUp h = true.
Proof.
  intros Hr. unfold isCaughtUp.
  rewrite bool_decide_eq_false_2 by exact Hr. reflexivity.
Qed.

Lemma isCaughtUp_primary (h : commithook) :
  role h = RolePrimary ->
  isCaughtUp h = negb (nextHead h =? zeroHash) && (nextHead h =? lastPushedHead h).
Proof.
  intros Hr. unfold isCaughtUp.
  rewrite bool_decide_eq_true_2 by exact Hr. cbn.
  destruct (nextHead h =? zeroHash); reflexivity.
Qed.

(** C1, as the code has it: [isCaughtUp()] is true if and only if the role
    is not Primary, or [nextHead] is not the zero hash and equals
    [lastPushedHead]; with role Primary and [nextHead] zero it is false. *)
Theorem C1_isCaughtUp_iff (h : commithook) :
  (isCaughtUp h = true <->
     role h <> RolePrimary \/
     (nextHead h <> zeroHash /\ nextHead h = lastPushedHead h))
  /\ (role h = RolePrimary -> nextHead h = zeroHash -> isCaughtUp h = false).
Proof.
  split.
  - destruct (decide (role h = RolePrimary)) as [Hp | Hp].
    + rewrite (isCaughtUp_primary h Hp), andb_true_iff, negb_true_iff,
        N.eqb_neq, N.eqb_eq.
      split; [intros H; right; exact H | intros [H | H]; [contradiction | exact H]].
    + rewrite (isCaughtUp_not_primary h Hp). split; [left; exact Hp | reflexivity].
  - intros Hp Hz. rewrite (isCaughtUp_primary h Hp), Hz. reflexivity.
Qed.

(** A Primary hook as [newCommitHook] makes it: [nextHead] is zero and the
    hook is not caught up. *)
Lemma C1_isCaughtUp_iff_witness :
  let h := newCommitHook "standby" "db" RolePrimary in
  role h = RolePrimary /\ nextHead h = zeroHash /\ isCaughtUp h = false.
Proof.
  split; [reflexivity | split; [reflexivity |]].
  apply (C1_isCaughtUp_iff (newCommitHook "standby" "db" RolePrimary));
    reflexivity.
Defined.

(** C1 as the spec words it fails on a Primary hook whose [nextHead] is still
    zero: the right-hand side holds and [isCaughtUp()] is false. *)
Lemma C1_counterexample :
  let h := newCommitHook "standby" "db" RolePrimary in
  (role h <> RolePrimary \/ nextHead h = zeroHash \/ nextHead h = lastPushedHead h)
  /\ isCaughtUp h <> true.
Proof.
  split; [right; left; reflexivity | discriminate].
Qed.

End CaughtUp.

Section ExecuteProps.

Local Open Scope N_scope.

(** Splits a goal about [Execute] along the branches of its body. *)
Ltac Execute_cases :=
  unfold Execute, makeChan, Signal in *; cbn [negb] in *;
  repeat case_match; simplify_eq/=.

(** C5: with role Primary and a root read from the local store, [Execute]
    stamps [nextHeadIncomingTime], takes the root as [nextHead], zeroes
    [nextPushAttempt] and signals the worker when the root differs from
    [nextHead]; when it equals [nextHead], none of the three fields changes
    and no signal is sent. *)
Theorem C5_Execute_new_head (root : Hash) (now : Time) (h : commithook) (rt : runtime) :
  role h = RolePrimary ->
  let h' := fst (snd (Execute (inl root) now (h, rt))) in
  let rt' := snd (snd (Execute (inl root) now (h, rt))) in
  (root <> nextHead h ->
     nextHeadIncomingTime h' = now /\ nextHead h' = root /\
     nextPushAttempt h' = zeroTime /\ signals rt' = S (signals rt))
  /\ (root = nextHead h ->
        nextHeadIncomingTime h' = nextHeadIncomingTime h /\
        nextHead h' = nextHead h /\
        nextPushAttempt h' = nextPushAttempt h /\ signals rt' = signals rt).
Proof.
  intros Hp. cbn zeta.
  split; intros Hroot.
  - apply N.eqb_neq in Hroot. unfold Execute.
    rewrite bool_decide_eq_true_2 by exact Hp. rewrite Hroot.
    Execute_cases; auto.
  - unfold Execute.
    rewrite bool_decide_eq_true_2 by exact Hp.
    rewrite (proj2 (N.eqb_eq _ _) Hroot).
    Execute_cases; auto.
Qed.

Lemma C5_Execute_new_head_witness :
  let w := Execute (inl 7) 100%Z (newCommitHook "standby" "db" RolePrimary, newRuntime) in
  nextHeadIncomingTime (fst (snd w)) = 100%Z /\ nextHead (fst (snd w)) = 7 /\
  nextPushAttempt (fst (snd w)) = zeroTime /\ signals (snd (snd w)) = 1%nat.
Proof.
  apply (C5_Execute_new_head 7 100%Z
           (newCommitHook "standby" "db" RolePrimary) newRuntime);
    [reflexivity | discriminate].
Defined.

(** C8, as the code has it: when the role is not Primary, [Execute] changes
    nothing in the hook or around it and hands back the nil [waitF]; the
    error it returns is nil when the local root was read, and the error of
    that read otherwise. *)
Theorem C8_Execute_not_primary (root : Hash + error) (now : Time) (w : world) :
  role (fst w) <> RolePrimary ->
  snd (Execute root now w) = w
  /\ fst (fst (Execute root now w)) = waitNil
  /\ snd (fst (Execute root now w))
     = match root with inl _ => None | inr err => Some err end.
Proof.
  intros Hr. destruct w as [h rt]. cbn in Hr. unfold Execute.
  destruct root as [root | err]; [| auto].
  rewrite bool_decide_eq_false_2 by exact Hr. cbn. auto.
Qed.

Lemma C8_Execute_not_primary_witness :
  let w := (newCommitHook "standby" "db" RoleStandby, newRuntime) in
  snd (Execute (inl 7) 100%Z w) = w
  /\ fst (fst (Execute (inl 7) 100%Z w)) = waitNil
  /\ snd (fst (Execute (inl 7) 100%Z w)) = None.
Proof.
  apply (C8_Execute_not_primary (inl 7) 100%Z
           (newCommitHook "standby" "db" RoleStandby, newRuntime)).
  discriminate.
Defined.

(** C8 as worded fails when the read of the local root fails: on a Standby
    hook [Execute] then returns that error, not [(nil, nil)]. *)
Lemma C8_counterexample :
  let w := (newCommitHook "standby" "db" RoleStandby, newRuntime) in
  role (fst w) <> RolePrimary
  /\ fst (Execute (inr "chunk store closed") 100%Z w) <> (waitNil, None).
Proof.
  split; discriminate.
Qed.

End ExecuteProps.

Section SetRoleProps.

(** C7: [setRole(newRole)] zeroes [nextHead], [lastPushedHead], [lastSuccess]
    and [nextPushAttempt], stores the role, calls the cancel function of a
    push in flight (and drops it), signals the worker, and leaves
    [currentError] nil unless the new role is [RoleDetectedBrokenConfig],
    where it is the fixed message; for every role but Primary the hook is
    then caught up. [setRole] is a function of the hook alone: it takes no
    answer of a remote call. *)
Theorem C7_setRole (newRole : Role) (h : commithook) (rt : runtime) :
  let h' := fst (setRole newRole (h, rt)) in
  let rt' := snd (setRole newRole (h, rt)) in
  nextHead h' = zeroHash /\ lastPushedHead h' = zeroHash /\
  lastSuccess h' = zeroTime /\ nextPushAttempt h' = zeroTime /\
  role h' = newRole /\
  cancelReplicate h' = None /\
  cancelled rt' = match cancelReplicate h with
                  | Some c => c :: cancelled rt
                  | None => cancelled rt
                  end /\
  currentError h' = (if bool_decide (newRole = RoleDetectedBrokenConfig)
                     then Some errDetectedBrokenConfigStr else None) /\
  errDetectedBrokenConfigStr =
    "error: more than one server was configured as primary in the same epoch. this server has stopped accepting writes. choose a primary in the cluster and call dolt_assume_cluster_role() on servers in the cluster to start replication at a higher epoch" /\
  signals rt' = S (signals rt) /\
  (newRole <> RolePrimary -> isCaughtUp h' = true).
Proof.
  cbn zeta. unfold setRole.
  destruct (cancelReplicate h) as [c |] eqn:Hc;
    destruct newRole; cbn; rewrite ?Hc; cbn;
    repeat split; try reflexivity; intros; try congruence; exact Hc.
Qed.

Lemma C7_setRole_witness :
  isCaughtUp (fst (setRole RoleStandby
    (set_lastPushedHead 3 (set_nextHead 4 (newCommitHook "standby" "db" RolePrimary)),
     newRuntime))) = true.
Proof.
  apply (C7_setRole RoleStandby
           (set_lastPushedHead 3 (set_nextHead 4 (newCommitHook "standby" "db" RolePrimary)))
           newRuntime).
  discriminate.
Defined.

End SetRoleProps.

Section ExecuteTwice.
Local Open Scope N_scope.

(** [Execute] on a Primary hook whose [nextHead] is the root read. *)
Lemma Execute_settled (root : Hash) (now : Time) (h : commithook) (rt : runtime) :
  role h = RolePrimary -> nextHead h = root ->
  Execute (inl root) now (h, rt) =
  if isCaughtUp h then ((waitNil, None), (h, rt))
  else if fastFailReplicationWait h
       then ((waitCircuitBreaker (remotename h) (dbname h), None), (h, rt))
       else match successChs h with
            | ch :: _ => ((waitSuccessCh ch, None), (h, rt))
            | [] => ((waitSuccessCh (madeChs rt), None),
                     (set_successChs [madeChs rt] h, snd (makeChan rt)))
            end.
Proof.
  intros Hp Hroot. subst root. unfold Execute.
  rewrite bool_decide_eq_true_2 by exact Hp.
  rewrite N.eqb_refl. cbn [negb].
  destruct (isCaughtUp h); cbn [negb]; [reflexivity |].
  destruct (fastFailReplicationWait h); [reflexivity |].
  destruct (successChs h) as [| ch rest] eqn:Hs; cbn; rewrite ?Hs; reflexivity.
Qed.

(** A root that differs from [nextHead] is recorded first. *)
Lemma Execute_fresh (root : Hash) (now : Time) (h : commithook) (rt : runtime) :
  role h = RolePrimary -> nextHead h <> root ->
  Execute (inl root) now (h, rt) =
  Execute (inl root) now
    (set_nextPushAttempt zeroTime (set_nextHead root (set_nextHeadIncomingTime now h)),
     Signal rt).
Proof.
  intros Hp Hroot. unfold Execute. cbn [role set_nextPushAttempt set_nextHead set_nextHeadIncomingTime nextHead].
  rewrite bool_decide_eq_true_2 by exact Hp.
  rewrite (proj2 (N.eqb_neq root (nextHead h))) by congruence.
  rewrite N.eqb_refl. cbn [negb]. reflexivity.
Qed.


(** What [Execute] returns, by the state it leaves. *)
Lemma Execute_waitF_cases (root : Hash) (now : Time) (w : world) :
  let r := Execute (inl root) now w in
  (fst (fst r) = waitNil /\ isCaughtUp (fst (snd r)) = true)
  \/ (fst (fst r) = waitCircuitBreaker (remotename (fst w)) (dbname (fst w))
      /\ fastFailReplicationWait (fst w) = true
      /\ isCaughtUp (fst (snd r)) = false)
  \/ (exists ch, fst (fst r) = waitSuccessCh ch
        /\ head (successChs (fst (snd r))) = Some ch
        /\ fastFailReplicationWait (fst w) = false
        /\ isCaughtUp (fst (snd r)) = false).
Proof.
  destruct w as [h rt]. cbn zeta. cbn [fst].
  destruct (decide (role h = RolePrimary)) as [Hp | Hp].
  2:{ left. unfold Execute. rewrite bool_decide_eq_false_2 by exact Hp. cbn.
      split; [reflexivity | apply isCaughtUp_not_primary; exact Hp]. }
  assert (Hsettled : forall h rt, role h = RolePrimary -> nextHead h = root ->
    let r := Execute (inl root) now (h, rt) in
    (fst (fst r) = waitNil /\ isCaughtUp (fst (snd r)) = true)
    \/ (fst (fst r) = waitCircuitBreaker (remotename h) (dbname h)
        /\ fastFailReplicationWait h = true
        /\ isCaughtUp (fst (snd r)) = false)
    \/ (exists ch, fst (fst r) = waitSuccessCh ch
          /\ head (successChs (fst (snd r))) = Some ch
          /\ fastFailReplicationWait h = false
          /\ isCaughtUp (fst (snd r)) = false)).
  { clear. intros h rt Hp Hroot. cbn zeta.
    rewrite (Execute_settled root now h rt Hp Hroot).
    destruct (isCaughtUp h) eqn:Hcu; [left; split; [reflexivity | exact Hcu] |].
    destruct (fastFailReplicationWait h) eqn:Hff;
      [right; left; repeat split; assumption |].
    right; right.
    destruct (successChs h) as [| ch rest] eqn:Hs.
    - exists (madeChs rt). repeat split. exact Hcu.
    - exists ch. cbn. rewrite Hs. repeat split. exact Hcu. }
  destruct (decide (nextHead h = root)) as [Hroot | Hroot].
  - apply Hsettled; assumption.
  - rewrite (Execute_fresh root now h rt Hp Hroot).
    exact (Hsettled
             (set_nextPushAttempt zeroTime
                (set_nextHead root (set_nextHeadIncomingTime now h)))
             (Signal rt) Hp eq_refl).
Qed.




End ExecuteTwice.

Section AttemptReplicateProps.

Local Open Scope N_scope.

Lemma closedChs_closeAll (chs : list Chan) (rt : runtime) :
  closedChs (closeAll chs rt) = (reverse chs ++ closedChs rt)%list.
Proof.
  revert rt. induction chs as [| ch chs IH]; intros rt; [reflexivity |].
  cbn [closeAll fold_left]. fold (closeAll chs (close ch rt)).
  rewrite IH, reverse_cons. cbn [closedChs close].
  rewrite <- app_assoc. reflexivity.
Qed.

Lemma isClosed_closeAll (chs : list Chan) (rt : runtime) (ch : Chan) :
  ch ∈ chs -> isClosed ch (closeAll chs rt) = true.
Proof.
  intros Hin. unfold isClosed. apply bool_decide_eq_true_2.
  rewrite closedChs_closeAll. apply elem_of_app. left.
  apply elem_of_reverse. exact Hin.
Qed.

Lemma deferred_restoreSuccessChs_app (chs : list Chan) (h : commithook) :
  deferred_restoreSuccessChs chs h = set_successChs (successChs h ++ chs) h.
Proof.
  unfold deferred_restoreSuccessChs. destruct chs as [| ch chs]; cbn; [| reflexivity].
  rewrite app_nil_r. destruct h; reflexivity.
Qed.

(** Splits a goal about [attemptReplicate_finish] along its branches. *)
Ltac finish_cases :=
  unfold attemptReplicate_finish, deferred_cancelReplicate;
  rewrite ?deferred_restoreSuccessChs_app;
  repeat case_match; simplify_eq/=.

(** With role still Primary and no error. *)
Lemma attemptReplicate_finish_success (now : Time) (a : attempt)
  (h : commithook) (rt : runtime) :
  role h = RolePrimary ->
  let h' := fst (attemptReplicate_finish None now a (h, rt)) in
  let rt' := snd (attemptReplicate_finish None now a (h, rt)) in
  currentError h' = None /\ lastPushedHead h' = toPush a /\
  lastSuccess h' = incomingTime a /\ nextPushAttempt h' = zeroTime /\
  (forall ch, ch ∈ stolenChs a -> isClosed ch rt' = true) /\
  successChs h' = successChs h.
Proof.
  intros Hp. cbn zeta. unfold attemptReplicate_finish.
  rewrite bool_decide_eq_true_2 by exact Hp.
  destruct (stolenChs a) as [| ch0 chs] eqn:Hs.
  - finish_cases; repeat split; auto; intros ch Hin; inversion Hin.
  - change (negb (length (ch0 :: chs) =? 0)%nat) with true. cbn iota.
    rewrite deferred_restoreSuccessChs_app.
    unfold deferred_cancelReplicate.
    repeat case_match; simplify_eq/=; repeat split; auto using app_nil_r;
      intros ch Hin; apply (isClosed_closeAll (ch0 :: chs) rt ch Hin).
Qed.

(** With role still Primary and an error. *)
Lemma attemptReplicate_finish_failure (e : error) (now : Time) (a : attempt)
  (h : commithook) (rt : runtime) :
  role h = RolePrimary ->
  let h' := fst (attemptReplicate_finish (Some e) now a (h, rt)) in
  let rt' := snd (attemptReplicate_finish (Some e) now a (h, rt)) in
  currentError h' = Some ("failed to commit chunks on destDB: " ++ e)%string /\
  (toPush a = nextHead h -> nextPushAttempt h' = (now + Second)%Z) /\
  (toPush a <> nextHead h -> nextPushAttempt h' = nextPushAttempt h) /\
  lastPushedHead h' = lastPushedHead h /\ lastSuccess h' = lastSuccess h /\
  closedChs rt' = closedChs rt /\
  successChs h' = (successChs h ++ stolenChs a)%list.
Proof.
  intros Hp. cbn zeta. unfold attemptReplicate_finish.
  rewrite bool_decide_eq_true_2 by exact Hp.
  rewrite deferred_restoreSuccessChs_app. unfold deferred_cancelReplicate.
  cbn -[N.eqb Z.add append].
  destruct (toPush a =? nextHead h) eqn:Hn;
    [apply N.eqb_eq in Hn | apply N.eqb_neq in Hn];
    cbn -[Z.add append];
    destruct (cancelReplicate h) eqn:Hc; cbn -[Z.add append];
    repeat split; auto; intros; congruence.
Qed.

(** With another role. *)
Lemma attemptReplicate_finish_other_role (err : option error) (now : Time)
  (a : attempt) (h : commithook) (rt : runtime) :
  role h <> RolePrimary ->
  let h' := fst (attemptReplicate_finish err now a (h, rt)) in
  let rt' := snd (attemptReplicate_finish err now a (h, rt)) in
  currentError h' = currentError h /\ lastPushedHead h' = lastPushedHead h /\
  lastSuccess h' = lastSuccess h /\ nextPushAttempt h' = nextPushAttempt h /\
  closedChs rt' = closedChs rt /\
  successChs h' = (successChs h ++ stolenChs a)%list.
Proof.
  intros Hp. cbn zeta. unfold attemptReplicate_finish.
  rewrite bool_decide_eq_false_2 by exact Hp.
  rewrite deferred_restoreSuccessChs_app. unfold deferred_cancelReplicate.
  repeat case_match; simplify_eq/=; repeat split; auto.
Qed.

(** C2: where [attemptReplicate] takes the mutex again after the remote
    calls. With role still Primary and no error it clears [currentError],
    sets [lastPushedHead] to [toPush] and [lastSuccess] to [incomingTime],
    zeroes [nextPushAttempt], closes every stolen channel and gives none
    back; with an error it sets [currentError], sets [nextPushAttempt] to
    one second from now exactly when [toPush] is still [nextHead], and
    gives the stolen channels back unclosed. With another role none of the
    fields changes, and the stolen channels are given back unclosed. *)
Theorem C2_attemptReplicate_reacquire (err : option error) (now : Time) (a : attempt)
  (h : commithook) (rt : runtime) :
  let h' := fst (attemptReplicate_finish err now a (h, rt)) in
  let rt' := snd (attemptReplicate_finish err now a (h, rt)) in
  (role h = RolePrimary -> err = None ->
     currentError h' = None /\ lastPushedHead h' = toPush a /\
     lastSuccess h' = incomingTime a /\ nextPushAttempt h' = zeroTime /\
     (forall ch, ch ∈ stolenChs a -> isClosed ch rt' = true) /\
     successChs h' = successChs h)
  /\ (role h = RolePrimary -> forall e, err = Some e ->
        currentError h' = Some ("failed to commit chunks on destDB: " ++ e)%string /\
        (toPush a = nextHead h -> nextPushAttempt h' = (now + Second)%Z) /\
        (toPush a <> nextHead h -> nextPushAttempt h' = nextPushAttempt h) /\
        lastPushedHead h' = lastPushedHead h /\ lastSuccess h' = lastSuccess h /\
        closedChs rt' = closedChs rt /\
        successChs h' = (successChs h ++ stolenChs a)%list)
  /\ (role h <> RolePrimary ->
        currentError h' = currentError h /\ lastPushedHead h' = lastPushedHead h /\
        lastSuccess h' = lastSuccess h /\ nextPushAttempt h' = nextPushAttempt h /\
        closedChs rt' = closedChs rt /\
        successChs h' = (successChs h ++ stolenChs a)%list).
Proof.
  cbn zeta. split; [| split].
  - intros Hp ->. exact (attemptReplicate_finish_success now a h rt Hp).
  - intros Hp e ->. exact (attemptReplicate_finish_failure e now a h rt Hp).
  - intros Hp. exact (attemptReplicate_finish_other_role err now a h rt Hp).
Qed.

(** A push of head 5 that succeeded for a committer waiting on channel 0. *)
Lemma C2_attemptReplicate_reacquire_witness :
  let h := set_nextHead 5 (newCommitHook "standby" "db" RolePrimary) in
  let rt := snd (makeChan newRuntime) in
  let a := mkAttempt 5 10%Z (Some 1%nat) [0%nat] in
  let h' := fst (attemptReplicate_finish None 20%Z a (h, rt)) in
  let rt' := snd (attemptReplicate_finish None 20%Z a (h, rt)) in
  currentError h' = None /\ lastPushedHead h' = 5 /\
  lastSuccess h' = 10%Z /\ nextPushAttempt h' = zeroTime /\
  (forall ch, ch ∈ [0%nat] -> isClosed ch rt' = true) /\
  successChs h' = [].
Proof.
  apply (C2_attemptReplicate_reacquire None 20%Z
           (mkAttempt 5 10%Z (Some 1%nat) [0%nat])
           (set_nextHead 5 (newCommitHook "standby" "db" RolePrimary))
           (snd (makeChan newRuntime))); reflexivity.
Defined.

(** C9: when [PullChunks], [Rebase] and [Root] succeed and
    [Commit(toPush, curRootHash)] answers [ok = false] without an error, the
    attempt's error is [errDestDBRootHashMoved], with the message of the
    spec. It is handled as every failure is: [lastPushedHead] keeps its
    value; with role still Primary [currentError] records it, and
    [nextPushAttempt] is one second from now when [toPush] is still
    [nextHead]. In a whole call that starts on a hook that is not caught up,
    with no other goroutine in between, all three hold. *)
Theorem C9_destination_root_moved (r : remote) (toPush' curRootHash : Hash) (now : Time) :
  PullChunks r = None -> Rebase r = None -> Root r = inl curRootHash ->
  Commit r toPush' curRootHash = (false, None) ->
  pushErr r toPush' = Some errDestDBRootHashMoved
  /\ errDestDBRootHashMoved =
       "cluster/commithook: standby replication: destination database root hash moved during our write, while it is assumed we are the only writer."%string
  /\ (forall (a : attempt) (h : commithook) (rt : runtime),
        toPush a = toPush' ->
        let h' := fst (attemptReplicate_finish (pushErr r (toPush a)) now a (h, rt)) in
        lastPushedHead h' = lastPushedHead h
        /\ (role h = RolePrimary ->
              currentError h'
              = Some ("failed to commit chunks on destDB: " ++ errDestDBRootHashMoved)%string
              /\ (toPush a = nextHead h -> nextPushAttempt h' = (now + Second)%Z)))
  /\ (forall (destDBF : DoltDB + error) (h : commithook) (rt : runtime),
        nextHead h = toPush' ->
        isCaughtUp h = false ->
        (destDB h = None -> exists d, destDBF = inl d) ->
        let h' := fst (attemptReplicate destDBF r now (h, rt)) in
        currentError h'
        = Some ("failed to commit chunks on destDB: " ++ errDestDBRootHashMoved)%string
        /\ nextPushAttempt h' = (now + Second)%Z
        /\ lastPushedHead h' = lastPushedHead h).
Proof.
  intros Hpull Hrebase Hroot Hcommit.
  assert (Herr : pushErr r toPush' = Some errDestDBRootHashMoved).
  { unfold pushErr. rewrite Hpull, Hrebase, Hroot, Hcommit. reflexivity. }
  split; [exact Herr | split; [reflexivity | split]].
  - intros a h rt Ha. cbn zeta. rewrite Ha, Herr.
    pose proof (attemptReplicate_finish_failure errDestDBRootHashMoved now a h rt)
      as Hfail.
    pose proof (attemptReplicate_finish_other_role
                  (Some errDestDBRootHashMoved) now a h rt) as Hother.
    split.
    + destruct (decide (role h = RolePrimary)) as [Hp | Hp].
      * destruct (Hfail Hp) as (_ & _ & _ & H & _). exact H.
      * destruct (Hother Hp) as (_ & H & _). exact H.
    + intros Hp. destruct (Hfail Hp) as (H1 & H2 & _).
      split; [exact H1 | rewrite <- Ha; exact H2].
  - intros destDBF h rt Hn Hcu Hdb. cbn zeta.
    assert (Hp : role h = RolePrimary).
    { destruct (decide (role h = RolePrimary)) as [Hp | Hp]; [exact Hp |].
      rewrite (isCaughtUp_not_primary h Hp) in Hcu. discriminate. }
    unfold attemptReplicate, attemptReplicate_begin, withCancel.
    cbn [localDestDB toPush].
    destruct (destDB h) as [d0 |] eqn:Hd.
    + rewrite Hn, Herr.
      match goal with
      | |- context [attemptReplicate_finish _ now ?a (?h1, ?rt1)] =>
          destruct (attemptReplicate_finish_failure
                      errDestDBRootHashMoved now a h1 rt1 Hp)
            as (H1 & H2 & _ & H4 & _)
      end.
      split; [exact H1 | split; [apply H2; symmetry; exact Hn | exact H4]].
    + destruct (Hdb eq_refl) as [d ->].
      unfold attemptReplicate_fetched. cbn [toPush]. rewrite Hn, Herr.
      match goal with
      | |- context [attemptReplicate_finish _ now ?a (?h1, ?rt1)] =>
          destruct (attemptReplicate_finish_failure
                      errDestDBRootHashMoved now a h1 rt1 Hp)
            as (H1 & H2 & _ & H4 & _)
      end.
      split; [exact H1 | split; [apply H2; symmetry; exact Hn | exact H4]].
Qed.

(** Pushing head 5 to a destination at root 3 that refuses the commit. *)
Lemma C9_destination_root_moved_witness :
  let r := mkRemote None None (inl 3) (fun _ _ => (false, None)) in
  let h := set_nextHead 5 (newCommitHook "standby" "db" RolePrimary) in
  let h' := fst (attemptReplicate (inl 1%nat) r 20%Z (h, newRuntime)) in
  currentError h'
  = Some ("failed to commit chunks on destDB: " ++ errDestDBRootHashMoved)%string
  /\ nextPushAttempt h' = (20 + Second)%Z
  /\ lastPushedHead h' = lastPushedHead h.
Proof.
  destruct (C9_destination_root_moved
              (mkRemote None None (inl 3) (fun _ _ => (false, None))) 5 3 20%Z
              eq_refl eq_refl eq_refl eq_refl) as (_ & _ & _ & H).
  apply (H (inl 1%nat) (set_nextHead 5 (newCommitHook "standby" "db" RolePrimary))
           newRuntime); [reflexivity | reflexivity |].
  intros _. exists 1%nat. reflexivity.
Defined.

End AttemptReplicateProps.

Section Epoch.

Local Open Scope N_scope.

(** Unfolds one transition into the method it runs. *)
Ltac step_cases H :=
  unfold step, locked, muFree, afterAttempt in H;
  repeat case_match; simplify_eq/=.

Ltac unfold_methods :=
  unfold hook, replicate_iter, replicate_idle, attemptReplicate_begin,
    attemptReplicate_fetched, attemptReplicate_destDBFailed,
    attemptHeartbeat_finish, attemptHeartbeat_begin,
    deferred_cancelReplicate, deferred_restoreSuccessChs,
    Execute, setRole, NotifyWaitFailed, recordSuccessfulRemoteSrvCommit,
    setWaitNotify, databaseWasDropped, withCancel, makeChan in *.

Lemma attemptReplicate_finish_lastPushedHead (err : option error) (now : Time)
  (a : attempt) (w : world) :
  lastPushedHead (fst (attemptReplicate_finish err now a w)) = lastPushedHead (fst w)
  \/ (err = None
      /\ lastPushedHead (fst (attemptReplicate_finish err now a w)) = toPush a).
Proof.
  destruct w as [h rt].
  destruct (decide (role h = RolePrimary)) as [Hp | Hp].
  - destruct err as [e |].
    + left. destruct (attemptReplicate_finish_failure e now a h rt Hp)
        as (_ & _ & _ & H & _). exact H.
    + right. destruct (attemptReplicate_finish_success now a h rt Hp)
        as (_ & H & _). split; [reflexivity | exact H].
  - left. destruct (attemptReplicate_finish_other_role err now a h rt Hp)
      as (_ & H & _). exact H.
Qed.

(** A transition other than [setRole] keeps [lastPushedHead] or sets it to
    the head of the push in flight, at that push's successful end. *)
Lemma step_lastPushedHead (act : action) (s s' : sys) :
  step act s = Some s' ->
  lastPushedHead (hook s') = lastPushedHead (hook s)
  \/ (exists r, act = CallSetRole r)
  \/ (exists r now a last, act = RemoteDone r now /\ wk s = Pushing a last
        /\ pushErr r (toPush a) = None
        /\ lastPushedHead (hook s') = toPush a).
Proof.
  intros Hstep. destruct s as [[h rt] k].
  destruct act;
    try (step_cases Hstep; unfold_methods; cbn in *;
         try (right; left; eexists; reflexivity);
         left; repeat case_match; simplify_eq/=; reflexivity).
  unfold step, afterAttempt in Hstep; repeat case_match; simplify_eq;
    unfold hook; cbn [hk wk];
    match goal with
    | |- context [attemptReplicate_finish ?e ?n ?a ?w] =>
        destruct (attemptReplicate_finish_lastPushedHead e n a w)
          as [Hkeep | [Hnone Hset]]
    end;
    try (left; exact Hkeep);
    right; right; do 4 eexists; repeat split; eassumption.
Qed.

(** The head of a push in flight after a transition is the head of the push
    in flight before it, or what [nextHead] was before it. *)
Lemma step_inflight (act : action) (s s' : sys) (head : Hash) :
  step act s = Some s' ->
  inflight (wk s') = Some head ->
  inflight (wk s) = Some head \/ head = nextHead (hook s).
Proof.
  intros Hstep Hin. destruct s as [[h rt] k].
  destruct act; step_cases Hstep; unfold_methods; cbn in *;
    repeat case_match; simplify_eq/=; auto.
Qed.


Lemma run_head (acts : list action) (s : sys) (tr : list sys) :
  run acts s = Some tr -> exists tl, tr = s :: tl.
Proof.
  destruct acts as [| act acts]; cbn [run].
  - intros [= <-]. exists []. reflexivity.
  - destruct (step act s) as [s' |]; [| discriminate].
    destruct (run acts s') as [tr' |]; [| discriminate].
    intros [= <-]. exists tr'. reflexivity.
Qed.

Lemma run_cons_inv (act : action) (acts : list action) (s : sys) (tr : list sys) :
  run (act :: acts) s = Some tr ->
  exists s' tl, step act s = Some s' /\ run acts s' = Some (s' :: tl)
                /\ tr = s :: s' :: tl.
Proof.
  cbn [run]. destruct (step act s) as [s' |]; [| discriminate].
  destruct (run acts s') as [tr' |] eqn:Hrun; [| discriminate].
  intros [= <-]. destruct (run_head acts s' tr' Hrun) as [tl ->].
  exists s', tl. auto.
Qed.

(** C3, as the code has it. Along transitions with no [setRole] among them,
    [lastPushedHead] at the end is its value at the start, or a value
    [nextHead] had in between, or the head captured by a push that was in
    flight at the start (a value [nextHead] had when that push began). One
    transition changes [lastPushedHead] only if it is [setRole], which
    zeroes it, or the successful end of a push, which sets it to the head
    that push captured. *)
Theorem C3_lastPushedHead_epoch :
  (forall (acts : list action) (s1 s2 : sys) (tr : list sys),
     run acts s1 = Some tr -> last tr = Some s2 ->
     forallb (fun act => negb (isSetRole act)) acts = true ->
     lastPushedHead (hook s2) = lastPushedHead (hook s1)
     \/ (exists s, s ∈ tr /\ lastPushedHead (hook s2) = nextHead (hook s))
     \/ (exists a last, wk s1 = Pushing a last
                        /\ lastPushedHead (hook s2) = toPush a))
  /\ (forall (act : action) (s s' : sys),
        step act s = Some s' ->
        lastPushedHead (hook s') <> lastPushedHead (hook s) ->
        (exists r, act = CallSetRole r /\ lastPushedHead (hook s') = zeroHash)
        \/ (exists r now a last,
              act = RemoteDone r now /\ wk s = Pushing a last
              /\ pushErr r (toPush a) = None
              /\ lastPushedHead (hook s') = toPush a))
  /\ (forall (r : Role) (s s' : sys),
        step (CallSetRole r) s = Some s' -> lastPushedHead (hook s') = zeroHash).
Proof.
  assert (HsetRole : forall r s s',
            step (CallSetRole r) s = Some s' -> lastPushedHead (hook s') = zeroHash).
  { intros r [[h rt] k] s' Hstep. step_cases Hstep; unfold hook, setRole; cbn;
      repeat case_match; simplify_eq/=; reflexivity. }
  split; [| split; [| exact HsetRole]].
  - induction acts as [| act acts IH]; intros s1 s2 tr Hrun Hlast Hacts.
    + cbn in Hrun. injection Hrun as <-. cbn in Hlast. injection Hlast as <-.
      left. reflexivity.
    + destruct (run_cons_inv act acts s1 tr Hrun) as (s' & tl & Hstep & Hrun' & ->).
      cbn [forallb] in Hacts. apply andb_true_iff in Hacts as [Hact Hacts].
      change (last (s1 :: s' :: tl)) with (last (s' :: tl)) in Hlast.
      destruct (IH s' s2 (s' :: tl) Hrun' Hlast Hacts)
        as [Heq | [(s & Hs & Heq) | (a & l & Hwk & Heq)]].
      * rewrite Heq.
        destruct (step_lastPushedHead act s1 s' Hstep)
          as [H | [[r ->] | (r & now & a & l & _ & Hwk & _ & H)]].
        -- left. exact H.
        -- discriminate.
        -- right; right. exists a, l. split; assumption.
      * right; left. exists s. split; [apply list_elem_of_further; exact Hs | exact Heq].
      * destruct (step_inflight act s1 s' (toPush a) Hstep) as [H | H].
        { rewrite Hwk. reflexivity. }
        -- right; right. destruct (wk s1) as [| | a1 l1 | | |]; try discriminate.
           exists a1, l1. split; [reflexivity |]. cbn in H. congruence.
        -- right; left. exists s1. split; [apply list_elem_of_here | congruence].
  - intros act s s' Hstep Hne.
    destruct (step_lastPushedHead act s s' Hstep) as [H | [[r ->] | H]].
    + contradiction.
    + left. exists r. split; [reflexivity | exact (HsetRole r s s' Hstep)].
    + right. exact H.
Qed.

(** The push of head 1 ends while [nextHead] is 2: [lastPushedHead] becomes
    the head of the push that was in flight. *)
Lemma C3_lastPushedHead_epoch_witness :
  exists (s1 s2 : sys) (tr : list sys),
    runTo newerHead_before (initial "standby" "db" RolePrimary) = Some s1
    /\ run newerHead_after s1 = Some tr /\ last tr = Some s2
    /\ (lastPushedHead (hook s2) = lastPushedHead (hook s1)
        \/ (exists s, s ∈ tr /\ lastPushedHead (hook s2) = nextHead (hook s))
        \/ (exists a last, wk s1 = Pushing a last
                           /\ lastPushedHead (hook s2) = toPush a)).
Proof.
  eexists _, _, _.
  split; [vm_compute; reflexivity |].
  split; [vm_compute; reflexivity |].
  split; [vm_compute; reflexivity |].
  eapply (proj1 C3_lastPushedHead_epoch newerHead_after);
    vm_compute; reflexivity.
Defined.

(** C3 as worded fails in the scenario "newer head during push": observed
    after head 2 came in and after the push of head 1 ended, with the mutex
    free both times and no [setRole] at all, [lastPushedHead] went from 0 to
    1 while [nextHead] was 2 all along. *)
Lemma C3_counterexample :
  exists (s1 s2 : sys) (tr : list sys),
    runTo newerHead_before (initial "standby" "db" RolePrimary) = Some s1
    /\ run newerHead_after s1 = Some tr /\ last tr = Some s2
    /\ forallb (fun act => negb (isSetRole act)) (newerHead_before ++ newerHead_after)
       = true
    /\ muFree s1 = true /\ muFree s2 = true
    /\ ~ (lastPushedHead (hook s2) = lastPushedHead (hook s1)
          \/ exists s, s ∈ tr /\ lastPushedHead (hook s2) = nextHead (hook s)).
Proof.
  eexists _, _, _.
  split; [vm_compute; reflexivity |].
  split; [vm_compute; reflexivity |].
  split; [vm_compute; reflexivity |].
  split; [reflexivity |].
  split; [reflexivity |].
  split; [reflexivity |].
  intros [H | (s & Hs & H)]; [discriminate H |].
  repeat (apply elem_of_cons in Hs as [-> | Hs]; [discriminate H |]).
  inversion Hs.
Qed.

End Epoch.

Section CircuitBreaker.

Local Open Scope N_scope.

(** C4 on the code. After [NotifyWaitFailed], an [Execute] that leaves the
    hook not caught up returns the circuit-breaker [waitF], which returns its
    error at once. But the end of a push never touches
    [fastFailReplicationWait], also when it closes the waiting channels: in
    the scenario "circuit breaker" the push of head 1 succeeds and closes
    channel 0, the worker goes idle with [successChs] empty, and the flag is
    still set, so the [waitF] of the next commit is again the
    circuit-breaker one. *)
Theorem C4_fastFail_survives_push :
  (forall (root : Hash) (now : Time) (w : world),
     let r := Execute (inl root) now (NotifyWaitFailed w) in
     (isCaughtUp (fst (snd r)) = true /\ fst (fst r) = waitNil)
     \/ (isCaughtUp (fst (snd r)) = false
         /\ fst (fst r) = waitCircuitBreaker (remotename (fst w)) (dbname (fst w))
         /\ forall (ctxErr : option error) (rt : runtime),
              callWaitF (fst (fst r)) ctxErr rt
              = [Some (circuitBreakerError (remotename (fst w)) (dbname (fst w)))]))
  /\ (forall (err : option error) (now : Time) (a : attempt) (w : world),
        fastFailReplicationWait (fst (attemptReplicate_finish err now a w))
        = fastFailReplicationWait (fst w))
  /\ exists s : sys,
       runTo circuitBreaker_trace (initial "standby" "db" RolePrimary) = Some s
       /\ wk s = Waiting true
       /\ lastPushedHead (hook s) = 1 /\ nextHead (hook s) = 1
       /\ closedChs (snd (hk s)) = [0%nat] /\ successChs (hook s) = []
       /\ fastFailReplicationWait (hook s) = true
       /\ fst (fst (Execute (inl 2) 10%Z (hk s))) = waitCircuitBreaker "standby" "db"
       /\ callWaitF (waitCircuitBreaker "standby" "db") None
            (snd (snd (Execute (inl 2) 10%Z (hk s))))
          = [Some (circuitBreakerError "standby" "db")].
Proof.
  split; [| split].
  - intros root now [h rt]. cbn zeta.
    destruct (Execute_waitF_cases root now (NotifyWaitFailed (h, rt)))
      as [[H1 H2] | [(H1 & _ & H2) | (ch & _ & _ & H & _)]].
    + left. split; assumption.
    + right. split; [exact H2 | split; [exact H1 |]].
      intros ctxErr rt'. rewrite H1. reflexivity.
    + discriminate H.
  - intros err now a [h rt].
    unfold attemptReplicate_finish, deferred_cancelReplicate,
      deferred_restoreSuccessChs.
    repeat case_match; simplify_eq/=; reflexivity.
  - eexists. split; [vm_compute; reflexivity |].
    repeat split.
Qed.

End CircuitBreaker.

Section Channels.

Lemma chansOk_sameChans (l : list Chan) (rt rt' : runtime) :
  sameChans rt rt' -> chansOk l rt -> chansOk l rt'.
Proof.
  intros (Hc & Hm & Hd) H. unfold chansOk. rewrite Hc, Hm, Hd. exact H.
Qed.

Lemma madeChs_closeAll (chs : list Chan) (rt : runtime) :
  madeChs (closeAll chs rt) = madeChs rt.
Proof.
  revert rt. induction chs as [| ch chs IH]; intros rt; [reflexivity |].
  cbn [closeAll fold_left]. fold (closeAll chs (close ch rt)).
  rewrite IH. reflexivity.
Qed.

Lemma doubleClose_closeAll (chs : list Chan) (rt : runtime) :
  NoDup chs -> (forall ch, ch ∈ chs -> ch ∉ closedChs rt) ->
  doubleClose rt = false -> doubleClose (closeAll chs rt) = false.
Proof.
  revert rt. induction chs as [| ch chs IH]; intros rt Hnd Hopen Hdc; [exact Hdc |].
  cbn [closeAll fold_left]. fold (closeAll chs (close ch rt)).
  apply NoDup_cons in Hnd as [Hch Hnd].
  apply IH; [exact Hnd | |].
  - intros ch' Hin. cbn [closedChs close]. rewrite elem_of_cons.
    intros [-> | Hcl]; [contradiction |].
    apply (Hopen ch'); [apply list_elem_of_further; exact Hin | exact Hcl].
  - cbn [doubleClose close]. rewrite Hdc. unfold isClosed.
    rewrite bool_decide_eq_false_2; [reflexivity |].
    apply Hopen. apply list_elem_of_here.
Qed.

(** Closing a part of the pending channels keeps the rest in order. *)
Lemma chansOk_closeAll (keep gone : list Chan) (rt : runtime) :
  chansOk (keep ++ gone) rt -> chansOk keep (closeAll gone rt).
Proof.
  intros (Hnd & Hopen & Hmade & Hcl & Hdc).
  apply NoDup_app in Hnd as (Hk & Hdisj & Hg).
  unfold chansOk. rewrite closedChs_closeAll, madeChs_closeAll.
  repeat split.
  - exact Hk.
  - intros ch Hin. rewrite elem_of_app, elem_of_reverse.
    intros [Hgone | Hclosed].
    + exact (Hdisj ch Hin Hgone).
    + apply (Hopen ch); [apply elem_of_app; left; exact Hin | exact Hclosed].
  - intros ch Hin. apply Hmade. apply elem_of_app. left. exact Hin.
  - intros ch. rewrite elem_of_app, elem_of_reverse.
    intros [Hgone | Hclosed]; [| exact (Hcl ch Hclosed)].
    apply Hmade. apply elem_of_app. right. exact Hgone.
  - apply doubleClose_closeAll; [exact Hg | | exact Hdc].
    intros ch Hin. apply Hopen. apply elem_of_app. right. exact Hin.
Qed.

(** [Execute] keeps the channels, or makes one when [successChs] is empty. *)
Lemma Execute_chans (root : Hash + error) (now : Time) (h : commithook) (rt : runtime) :
  let h' := fst (snd (Execute root now (h, rt))) in
  let rt' := snd (snd (Execute root now (h, rt))) in
  (successChs h' = successChs h /\ sameChans rt rt')
  \/ (successChs h = [] /\ successChs h' = [madeChs rt]
      /\ closedChs rt' = closedChs rt /\ madeChs rt' = S (madeChs rt)
      /\ doubleClose rt' = doubleClose rt).
Proof.
  cbn zeta. unfold Execute, makeChan, Signal, sameChans.
  repeat case_match; simplify_eq/=; auto.
  all: match goal with
       | H : (length (successChs _) =? 0)%nat = true |- _ =>
           apply Nat.eqb_eq, length_zero_iff_nil in H; cbn in H; rewrite H in *
       end; simplify_eq/=; right; auto.
Qed.

Lemma Execute_chansOk (root : Hash + error) (now : Time) (h : commithook)
  (rt : runtime) (stolen : list Chan) :
  chansOk (successChs h ++ stolen) rt ->
  chansOk (successChs (fst (snd (Execute root now (h, rt)))) ++ stolen)
    (snd (snd (Execute root now (h, rt)))).
Proof.
  intros Hok.
  destruct (Execute_chans root now h rt) as [[Hs Hrt] | (Hs & Hs' & Hc & Hm & Hd)].
  - rewrite Hs. exact (chansOk_sameChans _ _ _ Hrt Hok).
  - rewrite Hs'. rewrite Hs in Hok. cbn [app] in *.
    destruct Hok as (Hnd & Hopen & Hmade & Hcl & Hdc).
    unfold chansOk. rewrite Hc, Hm, Hd. repeat split.
    + apply NoDup_cons. split; [| exact Hnd].
      intros Hin. specialize (Hmade _ Hin). lia.
    + intros ch. rewrite elem_of_cons. intros [-> | Hin]; [| exact (Hopen ch Hin)].
      intros Hin. specialize (Hcl _ Hin). lia.
    + intros ch. rewrite elem_of_cons. intros [-> | Hin]; [lia |].
      specialize (Hmade _ Hin). lia.
    + intros ch Hin. specialize (Hcl _ Hin). lia.
    + exact Hdc.
Qed.


Lemma attemptReplicate_finish_chans (err : option error) (now : Time) (a : attempt)
  (h : commithook) (rt : runtime) :
  let h' := fst (attemptReplicate_finish err now a (h, rt)) in
  let rt' := snd (attemptReplicate_finish err now a (h, rt)) in
  (successChs h' = successChs h /\ sameChans (closeAll (stolenChs a) rt) rt')
  \/ (successChs h' = (successChs h ++ stolenChs a)%list /\ sameChans rt rt').
Proof.
  cbn zeta. unfold attemptReplicate_finish, deferred_cancelReplicate, sameChans.
  rewrite ?deferred_restoreSuccessChs_app.
  destruct (stolenChs a) as [| ch chs] eqn:Hs;
    repeat case_match; simplify_eq/=; rewrite ?app_nil_r; auto.
Qed.

Lemma attemptReplicate_destDBFailed_chans (err : error) (now : Time) (a : attempt)
  (h : commithook) (rt : runtime) :
  let h' := fst (attemptReplicate_destDBFailed err now a (h, rt)) in
  let rt' := snd (attemptReplicate_destDBFailed err now a (h, rt)) in
  successChs h' = (successChs h ++ stolenChs a)%list /\ sameChans rt rt'.
Proof.
  cbn zeta. unfold attemptReplicate_destDBFailed, deferred_cancelReplicate, sameChans.
  rewrite ?deferred_restoreSuccessChs_app.
  repeat case_match; simplify_eq/=; auto.
Qed.

Lemma closeAll_sameChans (chs : list Chan) (rt rt' : runtime) :
  sameChans rt rt' -> sameChans (closeAll chs rt) (closeAll chs rt').
Proof.
  revert rt rt'. induction chs as [| ch chs IH]; intros rt rt' H; [exact H |].
  cbn [closeAll fold_left]. fold (closeAll chs (close ch rt)).
  fold (closeAll chs (close ch rt')). apply IH.
  destruct H as (Hc & Hm & Hd). unfold sameChans, close, isClosed. cbn.
  rewrite Hc, Hm, Hd. auto.
Qed.

Lemma replicate_idle_chans (sh : bool) (h : commithook) (rt : runtime) :
  let k := fst (replicate_idle sh (h, rt)) in
  let h' := fst (snd (replicate_idle sh (h, rt))) in
  let rt' := snd (snd (replicate_idle sh (h, rt))) in
  inflight k = None
  /\ ((successChs h' = successChs h /\ sameChans rt rt')
      \/ (successChs h' = [] /\ sameChans (closeAll (successChs h) rt) rt')).
Proof.
  cbn zeta. unfold replicate_idle.
  set (rt1 := match waitNotify h with Some f => notify f rt | None => rt end).
  assert (H1 : sameChans rt rt1).
  { subst rt1. destruct (waitNotify h); repeat split. }
  destruct (negb (length (successChs h) =? 0)%nat && isCaughtUp h).
  - pose proof (closeAll_sameChans (successChs h) rt rt1 H1) as H2.
    destruct H2 as (Hc & Hm & Hd).
    unfold attemptHeartbeat_begin, withCancel, sameChans.
    repeat case_match; simplify_eq/=; auto 10.
  - destruct H1 as (Hc & Hm & Hd).
    unfold attemptHeartbeat_begin, withCancel, sameChans.
    repeat case_match; simplify_eq/=; auto 10.
Qed.

Lemma replicate_iter_chans (ctxErr : bool) (srcRoot : Hash + error) (now : Time)
  (sh : bool) (h : commithook) (rt : runtime) :
  let k := fst (replicate_iter ctxErr srcRoot now sh (h, rt)) in
  let h' := fst (snd (replicate_iter ctxErr srcRoot now sh (h, rt))) in
  let rt' := snd (snd (replicate_iter ctxErr srcRoot now sh (h, rt))) in
  (exists a last, k = Pushing a last /\ stolenChs a = successChs h
                  /\ successChs h' = [] /\ sameChans rt rt')
  \/ (inflight k = None
      /\ ((successChs h' = successChs h /\ sameChans rt rt')
          \/ (successChs h' = [] /\ sameChans (closeAll (successChs h) rt) rt'))).
Proof.
  cbn zeta. unfold replicate_iter.
  destruct (shutdown h); [right; repeat split; left; repeat split |].
  destruct ctxErr.
  - destruct (shouldReplicate now h).
    + left. unfold attemptReplicate_begin, withCancel. cbn.
      do 2 eexists. repeat split.
    + right; repeat split; left; repeat split.
  - destruct (primaryNeedsInit h).
    + right. destruct srcRoot; repeat split; left; repeat split.
    + destruct (shouldReplicate now h).
      * left. unfold attemptReplicate_begin, withCancel. cbn.
        do 2 eexists. repeat split.
      * right. apply replicate_idle_chans.
Qed.

#[local] Arguments attemptReplicate_finish : simpl never.
#[local] Arguments attemptReplicate_destDBFailed : simpl never.
#[local] Arguments replicate_iter : simpl never.
#[local] Arguments Execute : simpl never.

Ltac step_cases' H :=
  unfold step, locked, muFree, afterAttempt in H;
  repeat case_match; simplify_eq.

Lemma step_sysOk (act : action) (s s' : sys) :
  sysOk s -> step act s = Some s' -> sysOk s'.
Proof.
  intros Hok Hstep. destruct s as [[h rt] k].
  unfold sysOk, pending, hook in *. cbn [hk wk fst snd] in *.
  destruct act.
  - (* Start *) step_cases' Hstep. exact Hok.
  - (* Iterate *)
    unfold step in Hstep. cbn [wk hk] in Hstep.
    destruct k; try discriminate.
    pose proof (replicate_iter_chans ctxErr srcRoot now shouldHeartbeat h rt) as H.
    destruct (replicate_iter ctxErr srcRoot now shouldHeartbeat (h, rt)) as [k' [h' rt']].
    injection Hstep as <-. cbn [hk wk fst snd] in *.
    rewrite app_nil_r in Hok.
    destruct H as [(a & l & -> & Ha & Hs & Hrt) | (Hk & [[Hs Hrt] | [Hs Hrt]])].
    + rewrite Hs, Ha. exact (chansOk_sameChans _ _ _ Hrt Hok).
    + assert (Hk' : match k' with Pushing a _ => stolenChs a | _ => [] end = [])
        by (destruct k'; try reflexivity; discriminate).
      rewrite Hk', Hs, app_nil_r. exact (chansOk_sameChans _ _ _ Hrt Hok).
    + assert (Hk' : match k' with Pushing a _ => stolenChs a | _ => [] end = [])
        by (destruct k'; try reflexivity; discriminate).
      rewrite Hk', Hs. cbn [app].
      apply (chansOk_sameChans _ _ _ Hrt).
      apply (chansOk_closeAll [] (successChs h) rt). exact Hok.
  - (* DestDBFailed *)
    unfold step in Hstep. cbn [wk hk] in Hstep.
    destruct k as [| | a l | | |]; try discriminate.
    destruct (localDestDB a); [discriminate |]. injection Hstep as <-.
    destruct (attemptReplicate_destDBFailed_chans err now a h rt) as [Hs Hrt].
    assert (Hk : match afterAttempt l with Pushing a _ => stolenChs a | _ => [] end = [])
      by (destruct l; reflexivity).
    cbn [hk wk fst snd]. rewrite Hk, Hs, app_nil_r.
    exact (chansOk_sameChans _ _ _ Hrt Hok).
  - (* DestDBFetched *)
    unfold step in Hstep. cbn [wk hk] in Hstep.
    destruct k as [| | a l | | |]; try discriminate.
    destruct (localDestDB a); [discriminate |].
    unfold attemptReplicate_fetched in Hstep. injection Hstep as <-.
    exact Hok.
  - (* RemoteDone *)
    unfold step in Hstep. cbn [wk hk] in Hstep.
    destruct k as [| | a l | | |]; try discriminate.
    destruct (localDestDB a); [| discriminate]. injection Hstep as <-.
    assert (Hk : match afterAttempt l with Pushing a _ => stolenChs a | _ => [] end = [])
      by (destruct l; reflexivity).
    cbn [hk wk fst snd]. rewrite Hk, app_nil_r.
    destruct (attemptReplicate_finish_chans (pushErr r (toPush a)) now a h rt)
      as [[Hs Hrt] | [Hs Hrt]]; rewrite Hs.
    + apply (chansOk_sameChans _ _ _ Hrt).
      apply (chansOk_closeAll (successChs h) (stolenChs a) rt). exact Hok.
    + exact (chansOk_sameChans _ _ _ Hrt Hok).
  - (* HeartbeatDone *)
    unfold step in Hstep. cbn [wk hk] in Hstep.
    destruct k; try discriminate. injection Hstep as <-.
    unfold attemptHeartbeat_finish, deferred_cancelReplicate.
    destruct (cancelReplicate h); exact Hok.
  - (* Wake *) step_cases' Hstep. exact Hok.
  - (* Execute *)
    unfold step, locked in Hstep.
    assert (Hwk : wk s' = k /\ hk s' = snd (Execute root now (h, rt))).
    { cbn [wk hk] in Hstep. destruct k; cbn in Hstep; simplify_eq; auto. }
    destruct Hwk as [-> ->]. apply Execute_chansOk. exact Hok.
  - (* setRole *)
    unfold step, locked in Hstep.
    assert (Hwk : wk s' = k /\ hk s' = setRole r (h, rt)).
    { cbn [wk hk] in Hstep. destruct k; cbn in Hstep; simplify_eq; auto. }
    destruct Hwk as [-> ->]. unfold setRole.
    repeat case_match; simplify_eq/=; exact Hok.
  - (* NotifyWaitFailed *)
    unfold step, locked in Hstep.
    assert (Hwk : wk s' = k /\ hk s' = NotifyWaitFailed (h, rt)).
    { cbn [wk hk] in Hstep. destruct k; cbn in Hstep; simplify_eq; auto. }
    destruct Hwk as [-> ->]. exact Hok.
  - (* recordSuccessfulRemoteSrvCommit *)
    unfold step, locked in Hstep.
    assert (Hwk : wk s' = k /\ hk s' = recordSuccessfulRemoteSrvCommit now (h, rt)).
    { cbn [wk hk] in Hstep. destruct k; cbn in Hstep; simplify_eq; auto. }
    destruct Hwk as [-> ->]. unfold recordSuccessfulRemoteSrvCommit.
    repeat case_match; simplify_eq/=; exact Hok.
  - (* setWaitNotify *)
    unfold step, locked in Hstep.
    assert (Hwk : wk s' = k /\ hk s' = snd (setWaitNotify f (h, rt))).
    { cbn [wk hk] in Hstep. destruct k; cbn in Hstep; simplify_eq; auto. }
    destruct Hwk as [-> ->]. unfold setWaitNotify.
    repeat case_match; simplify_eq/=; exact Hok.
  - (* databaseWasDropped *)
    unfold step in Hstep. cbn [wk hk] in Hstep.
    assert (Hs' : s' = mkSys (databaseWasDropped (h, rt)) k)
      by (destruct k; congruence).
    subst s'. exact Hok.
Qed.

(** From [newCommitHook] on, whatever the goroutines do, no channel is
    closed twice, and every channel a committer can hold is open until the
    worker closes it together with all others pending. *)
Lemma reachable_sysOk (remotename dbname : string) (r : Role) (acts : list action)
  (tr : list sys) :
  run acts (initial remotename dbname r) = Some tr ->
  forall s, s ∈ tr -> sysOk s /\ doubleClose (snd (hk s)) = false.
Proof.
  assert (Hinit : sysOk (initial remotename dbname r)).
  { unfold sysOk, chansOk, pending. cbn. repeat split; try constructor;
      intros ch Hin; inversion Hin. }
  revert Hinit. generalize (initial remotename dbname r). clear r.
  revert tr. induction acts as [| act acts IH]; intros tr s0 Hok Hrun s Hin.
  - cbn in Hrun. injection Hrun as <-.
    apply list_elem_of_singleton in Hin as ->. split; [exact Hok | apply Hok].
  - cbn [run] in Hrun. destruct (step act s0) as [s1 |] eqn:Hstep; [| discriminate].
    destruct (run acts s1) as [tr1 |] eqn:Hrun1; [| discriminate].
    injection Hrun as <-. apply elem_of_cons in Hin as [-> | Hin].
    + split; [exact Hok | apply Hok].
    + exact (IH tr1 s1 (step_sysOk act s0 s1 Hok Hstep) Hrun1 s Hin).
Qed.

End Channels.

(** * Properties of the database provider *)

Section DropDatabaseProps.

Import Sqle.

Lemma prefix_delimiter (c : ascii) (s t : string) :
  String.prefix DbRevisionDelimiter (String c s)
  = String.prefix DbRevisionDelimiter (String c t).
Proof.
  unfold DbRevisionDelimiter. cbn [String.prefix].
  destruct (ascii_dec "/" c); [destruct s, t |]; reflexivity.
Qed.

Lemma index_delimiter_app (base rest : string) :
  Contains base DbRevisionDelimiter = false ->
  String.index 0 DbRevisionDelimiter (base ++ DbRevisionDelimiter ++ rest)
  = Some (String.length base).
Proof.
  unfold Contains.
  induction base as [| c base IH]; intros Hno.
  - unfold DbRevisionDelimiter. cbn [String.append String.index String.prefix].
    destruct (ascii_dec "/" "/"); [destruct rest; reflexivity | congruence].
  - change (String c base ++ DbRevisionDelimiter ++ rest)
      with (String c (base ++ DbRevisionDelimiter ++ rest)).
    cbn [String.index String.length] in *.
    rewrite (prefix_delimiter c _ base).
    destruct (String.prefix DbRevisionDelimiter (String c base)); [discriminate |].
    destruct (String.index 0 DbRevisionDelimiter base) eqn:Hi; [discriminate |].
    rewrite (IH eq_refl). reflexivity.
Qed.

Lemma append_cons (c : ascii) (s t : string) :
  String c s ++ t = String c (s ++ t).
Proof. reflexivity. Qed.

Lemma substring_app_l (s t : string) :
  String.substring 0 (String.length s) (s ++ t) = s.
Proof.
  induction s as [| c s IH]; [destruct t; reflexivity |].
  rewrite append_cons. cbn [String.length String.substring].
  rewrite IH. reflexivity.
Qed.

Lemma substring_app_r (s t : string) :
  String.substring (String.length s) (String.length t) (s ++ t) = t.
Proof.
  induction s as [| c s IH].
  - change ("" ++ t) with t. cbn [String.length].
    induction t as [| c t IHt]; [reflexivity |].
    cbn [String.length String.substring]. rewrite IHt. reflexivity.
  - rewrite append_cons. cbn [String.length String.substring]. exact IH.
Qed.

Lemma length_app (s t : string) :
  String.length (s ++ t) = (String.length s + String.length t)%nat.
Proof.
  induction s as [| c s IH]; [reflexivity |].
  rewrite append_cons. cbn [String.length]. rewrite IH. reflexivity.
Qed.

Lemma append_assoc (s t u : string) : (s ++ t) ++ u = s ++ t ++ u.
Proof.
  induction s as [| c s IH]; [reflexivity |].
  rewrite !append_cons, IH. reflexivity.
Qed.

(** A name [base/rev] whose base holds no delimiter splits into its parts. *)
Lemma SplitRevisionDbName_app (base rev : string) :
  Contains base DbRevisionDelimiter = false ->
  SplitRevisionDbName (base ++ DbRevisionDelimiter ++ rev) = (base, rev).
Proof.
  intros Hno. unfold SplitRevisionDbName, SplitN2.
  rewrite (index_delimiter_app base rev Hno).
  rewrite substring_app_l.
  rewrite <- (append_assoc base DbRevisionDelimiter rev).
  replace (String.length base + String.length DbRevisionDelimiter)%nat
    with (String.length (base ++ DbRevisionDelimiter)) by apply length_app.
  replace (String.length ((base ++ DbRevisionDelimiter) ++ rev)
           - String.length (base ++ DbRevisionDelimiter))%nat
    with (String.length rev) by (rewrite (length_app (base ++ _) rev); lia).
  rewrite substring_app_r. reflexivity.
Qed.

(** C10, as the code has it: for every name whose revision part, the text
    after the first delimiter, is not empty, [DropDatabase] returns the error
    "unable to drop revision database: <name>" and leaves the provider as it
    was: the mutex is not taken, no map and nothing on disk changes, nothing
    is closed, evicted or called. So it is for every [base/rev] with a
    non-empty [rev] and no delimiter in [base]. *)
Theorem C10_DropDatabase_revision (ans : answers) (p : DoltDatabaseProvider) :
  (forall name : string,
     snd (SplitRevisionDbName name) <> "" ->
     DropDatabase ans name p
     = (Return (Some ("unable to drop revision database: " ++ name)), p))
  /\ (forall base rev : string,
        Contains base DbRevisionDelimiter = false -> rev <> "" ->
        DropDatabase ans (base ++ DbRevisionDelimiter ++ rev) p
        = (Return (Some ("unable to drop revision database: "
                         ++ base ++ DbRevisionDelimiter ++ rev)), p)).
Proof.
  assert (H : forall name, snd (SplitRevisionDbName name) <> "" ->
            DropDatabase ans name p
            = (Return (Some ("unable to drop revision database: " ++ name)), p)).
  { intros name Hrev. unfold DropDatabase.
    destruct (SplitRevisionDbName name) as [b revision]. cbn in Hrev.
    apply String.eqb_neq in Hrev. rewrite Hrev. reflexivity. }
  split; [exact H |].
  intros base rev Hno Hrev. apply H.
  rewrite (SplitRevisionDbName_app base rev Hno). exact Hrev.
Qed.

Lemma C10_DropDatabase_revision_witness :
  DropDatabase noErrors "mydb/feature" emptyProvider
  = (Return (Some "unable to drop revision database: mydb/feature"), emptyProvider).
Proof.
  apply (proj2 (C10_DropDatabase_revision noErrors emptyProvider) "mydb" "feature");
    [reflexivity | discriminate].
Defined.

(** C10 as worded fails on a name that ends in the delimiter: its revision
    part is empty, so [DropDatabase] goes on, takes the mutex and looks the
    name up; here the lookup finds nothing and the type assertion panics. *)
Lemma C10_counterexample :
  Contains "mydb/" DbRevisionDelimiter = true
  /\ fst (DropDatabase noErrors "mydb/" emptyProvider) = Panic
  /\ muLocks (snd (DropDatabase noErrors "mydb/" emptyProvider)) = 1%nat
  /\ DropDatabase noErrors "mydb/" emptyProvider
     <> (Return (Some "unable to drop revision database: mydb/"), emptyProvider).
Proof.
  repeat split; try (vm_compute; reflexivity).
  intros H. apply (f_equal fst) in H. vm_compute in H. discriminate H.
Qed.

End DropDatabaseProps.

(** * Further properties of the commit hook *)

Section StatusProps.

Local Open Scope N_scope.

(** What [status()] reports once a push has ended with success on a hook
    that is still Primary: no error, the incoming time of the pushed head as
    last update, and a lag of zero if the pushed head is still [nextHead],
    else the time since that incoming time; the hook is caught up exactly in
    the first case. *)
Theorem status_after_successful_push (now now' : Time) (a : attempt)
  (h : commithook) (rt : runtime) :
  role h = RolePrimary -> toPush a <> zeroHash ->
  let w' := attemptReplicate_finish None now a (h, rt) in
  status now' w'
  = (Some (if nextHead h =? toPush a then 0%Z else Sub now' (incomingTime a)),
     if (incomingTime a =? zeroTime)%Z then None else Some (incomingTime a),
     None)
  /\ isCaughtUp (fst w') = (nextHead h =? toPush a).
Proof.
  intros Hp Hnz. cbn zeta.
  destruct (attemptReplicate_finish_success now a h rt Hp)
    as (Herr & Hlast & Hsucc & _).
  assert (Hrole : role (fst (attemptReplicate_finish None now a (h, rt))) = RolePrimary
                  /\ nextHead (fst (attemptReplicate_finish None now a (h, rt)))
                     = nextHead h).
  { unfold attemptReplicate_finish, deferred_cancelReplicate,
      deferred_restoreSuccessChs.
    rewrite bool_decide_eq_true_2 by exact Hp.
    repeat case_match; simplify_eq/=; auto. }
  destruct Hrole as [Hrole Hnext].
  destruct (attemptReplicate_finish None now a (h, rt)) as [h' rt'].
  cbn [fst snd] in *. split.
  - unfold status. rewrite bool_decide_eq_true_2 by exact Hrole.
    rewrite Hlast, Hsucc, Herr, Hnext.
    apply N.eqb_neq in Hnz. rewrite Hnz. cbn [negb].
    destruct (nextHead h =? toPush a); destruct (incomingTime a =? zeroTime)%Z;
      reflexivity.
  - rewrite (isCaughtUp_primary h' Hrole), Hlast, Hnext.
    destruct (nextHead h =? toPush a) eqn:Heq; [| apply andb_false_r].
    apply N.eqb_eq in Heq. rewrite Heq.
    apply N.eqb_neq in Hnz. rewrite Hnz. reflexivity.
Qed.

Lemma status_after_successful_push_witness :
  let h := set_nextHead 5 (newCommitHook "standby" "db" RolePrimary) in
  let a := mkAttempt 5 10%Z (Some 1%nat) [] in
  status 30%Z (attemptReplicate_finish None 20%Z a (h, newRuntime))
  = (Some 0%Z, Some 10%Z, None).
Proof.
  apply (status_after_successful_push 20%Z 30%Z (mkAttempt 5 10%Z (Some 1%nat) [])
           (set_nextHead 5 (newCommitHook "standby" "db" RolePrimary)) newRuntime);
    [reflexivity | discriminate].
Defined.

(** Right after [setRole], [status()] reports no lag and no last update,
    and no error but the split-primary message of
    [RoleDetectedBrokenConfig]. *)
Theorem status_after_setRole (r : Role) (now : Time) (w : world) :
  status now (setRole r w)
  = (None, None,
     if bool_decide (r = RoleDetectedBrokenConfig)
     then Some errDetectedBrokenConfigStr else None).
Proof.
  destruct w as [h rt]. unfold setRole, status.
  destruct (cancelReplicate h) as [c |] eqn:Hc; destruct r;
    cbn; rewrite ?Hc; reflexivity.
Qed.

End StatusProps.

Section Backoff.

Local Open Scope N_scope.

(** Backoff. When a push fails on a hook that is still Primary and not
    caught up, and no newer head came in meanwhile, the hook asks for the
    next push only once more than one second has passed since the failure.
    So it is when the destination database could not be fetched. *)
Theorem backoff_after_failed_push (e : error) (now now' : Time) (a : attempt)
  (h : commithook) (rt : runtime) :
  role h = RolePrimary -> isCaughtUp h = false -> toPush a = nextHead h ->
  (0 <= now)%Z ->
  shouldReplicate now' (fst (attemptReplicate_finish (Some e) now a (h, rt)))
  = (now + Second <? now')%Z
  /\ shouldReplicate now' (fst (attemptReplicate_destDBFailed e now a (h, rt)))
     = (now + Second <? now')%Z.
Proof.
  intros Hp Hcu Hpush Hnow.
  assert (Hz : ((now + Second =? zeroTime) = false)%Z).
  { apply Z.eqb_neq. unfold Second, zeroTime. lia. }
  apply N.eqb_eq in Hpush.
  split.
  - unfold attemptReplicate_finish, deferred_cancelReplicate.
    rewrite bool_decide_eq_true_2 by exact Hp.
    rewrite deferred_restoreSuccessChs_app. cbn -[N.eqb Z.add append].
    rewrite Hpush. cbn -[Z.add append].
    destruct (cancelReplicate h); cbn -[Z.add append];
      unfold shouldReplicate;
      change (isCaughtUp _) with (isCaughtUp h); rewrite Hcu;
      cbn -[Z.add]; rewrite Hz; reflexivity.
  - unfold attemptReplicate_destDBFailed, deferred_cancelReplicate.
    rewrite deferred_restoreSuccessChs_app. cbn -[N.eqb Z.add append].
    rewrite Hpush. cbn -[Z.add append].
    unfold shouldReplicate.
    change (isCaughtUp _) with (isCaughtUp h). rewrite Hcu.
    cbn -[Z.add]. rewrite Hz. reflexivity.
Qed.

Lemma backoff_after_failed_push_witness :
  let h := set_nextHead 5 (newCommitHook "standby" "db" RolePrimary) in
  let a := mkAttempt 5 10%Z (Some 1%nat) [] in
  shouldReplicate (20 + Second)%Z
    (fst (attemptReplicate_finish (Some "unreachable") 20%Z a (h, newRuntime)))
  = false.
Proof.
  exact (proj1 (backoff_after_failed_push "unreachable" 20%Z (20 + Second)%Z
                  (mkAttempt 5 10%Z (Some 1%nat) [])
                  (set_nextHead 5 (newCommitHook "standby" "db" RolePrimary))
                  newRuntime eq_refl eq_refl eq_refl ltac:(lia))).
Defined.

(** A commit that comes in while a push is in flight is not held back by
    that push's failure: if [Execute] records a new root that is not the
    last pushed head, then after the push has failed the hook asks for a
    push at once, whatever the time. *)
Theorem new_head_skips_backoff (e : error) (root : Hash) (t now now' : Time)
  (a : attempt) (h : commithook) (rt : runtime) :
  role h = RolePrimary -> toPush a = nextHead h ->
  root <> nextHead h -> root <> lastPushedHead h ->
  shouldReplicate now'
    (fst (attemptReplicate_finish (Some e) now a
            (snd (Execute (inl root) t (h, rt))))) = true.
Proof.
  intros Hp Hpush Hroot Hlast.
  rewrite (Execute_fresh root t h rt Hp) by congruence.
  set (h1 := set_nextPushAttempt zeroTime
               (set_nextHead root (set_nextHeadIncomingTime t h))).
  assert (Hp1 : role h1 = RolePrimary) by exact Hp.
  assert (Hn1 : nextHead h1 = root) by reflexivity.
  assert (Ha1 : nextPushAttempt h1 = zeroTime) by reflexivity.
  assert (Hl1 : lastPushedHead h1 = lastPushedHead h) by reflexivity.
  clearbody h1.
  assert (Hcu1 : isCaughtUp h1 = false).
  { rewrite isCaughtUp_primary by exact Hp1. rewrite Hn1, Hl1.
    apply N.eqb_neq in Hlast. rewrite Hlast. apply andb_false_r. }
  assert (H2 : let h2 := fst (snd (Execute (inl root) t (h1, Signal rt))) in
               role h2 = RolePrimary /\ nextHead h2 = root
               /\ nextPushAttempt h2 = zeroTime
               /\ lastPushedHead h2 = lastPushedHead h).
  { cbn zeta. rewrite (Execute_settled root t h1 (Signal rt) Hp1 Hn1), Hcu1.
    destruct (fastFailReplicationWait h1); [cbn [fst snd]; auto |].
    destruct (successChs h1); cbn [fst snd]; auto. }
  destruct (snd (Execute (inl root) t (h1, Signal rt))) as [h2 rt2].
  cbn [fst] in H2. destruct H2 as (Hp2 & Hn2 & Ha2 & Hl2).
  destruct (attemptReplicate_finish_failure e now a h2 rt2 Hp2)
    as (_ & _ & Hkeep & Hlp & _).
  assert (Hrn : role (fst (attemptReplicate_finish (Some e) now a (h2, rt2)))
                = RolePrimary
                /\ nextHead (fst (attemptReplicate_finish (Some e) now a (h2, rt2)))
                   = nextHead h2).
  { unfold attemptReplicate_finish, deferred_cancelReplicate,
      deferred_restoreSuccessChs.
    rewrite bool_decide_eq_true_2 by exact Hp2.
    repeat case_match; simplify_eq/=; auto. }
  destruct Hrn as [Hp3 Hn3].
  assert (Hne : toPush a <> nextHead h2) by congruence.
  specialize (Hkeep Hne).
  destruct (attemptReplicate_finish (Some e) now a (h2, rt2)) as [h3 rt3].
  cbn [fst] in *. unfold shouldReplicate.
  rewrite (isCaughtUp_primary h3 Hp3), Hn3, Hn2, Hlp, Hl2.
  apply N.eqb_neq in Hlast. rewrite Hlast, andb_false_r.
  rewrite Hkeep, Ha2. reflexivity.
Qed.

Lemma new_head_skips_backoff_witness :
  let h := set_nextHead 5 (newCommitHook "standby" "db" RolePrimary) in
  let a := mkAttempt 5 10%Z (Some 1%nat) [] in
  shouldReplicate 20%Z
    (fst (attemptReplicate_finish (Some "unreachable") 20%Z a
            (snd (Execute (inl 6) 15%Z (h, newRuntime))))) = true.
Proof.
  apply (new_head_skips_backoff "unreachable" 6 15%Z 20%Z 20%Z
           (mkAttempt 5 10%Z (Some 1%nat) [])
           (set_nextHead 5 (newCommitHook "standby" "db" RolePrimary)) newRuntime);
    [reflexivity | reflexivity | discriminate | discriminate].
Defined.

End Backoff.

Section WorkerProps.

Local Open Scope N_scope.

(** The worker starts a push only when it has to: the hook is not shut
    down, its role is Primary, it is not caught up and no backoff is
    running. The push captures [nextHead], its incoming time and all of
    [successChs], which it leaves empty; unless the worker's context was
    cancelled, the head it captures is not the zero hash. *)
Theorem push_starts_only_when_needed (ctxErr : bool) (srcRoot : Hash + error)
  (now : Time) (sh last : bool) (a : attempt) (h h' : commithook) (rt rt' : runtime) :
  replicate_iter ctxErr srcRoot now sh (h, rt) = (Pushing a last, (h', rt')) ->
  shutdown h = false /\ role h = RolePrimary /\ shouldReplicate now h = true
  /\ last = ctxErr
  /\ a = mkAttempt (nextHead h) (nextHeadIncomingTime h) (destDB h) (successChs h)
  /\ successChs h' = []
  /\ (ctxErr = false -> toPush a <> zeroHash).
Proof.
  unfold replicate_iter. intros Hiter.
  destruct (shutdown h) eqn:Hsd; [discriminate |].
  assert (Hprim : shouldReplicate now h = true -> role h = RolePrimary).
  { unfold shouldReplicate. intros Hsr.
    destruct (decide (role h = RolePrimary)) as [Hp | Hp]; [exact Hp |].
    rewrite (isCaughtUp_not_primary h Hp) in Hsr. discriminate. }
  destruct ctxErr.
  - destruct (shouldReplicate now h) eqn:Hsr; [| discriminate].
    unfold attemptReplicate_begin, withCancel in Hiter.
    injection Hiter as <- <- <- <-. repeat split; auto; intros; discriminate.
  - destruct (primaryNeedsInit h) eqn:Hinit; [discriminate |].
    destruct (shouldReplicate now h) eqn:Hsr.
    + unfold attemptReplicate_begin, withCancel in Hiter.
      injection Hiter as <- <- <- <-. repeat split; auto.
      intros _. cbn. unfold primaryNeedsInit in Hinit.
      rewrite bool_decide_eq_true_2 in Hinit by auto. cbn in Hinit.
      apply N.eqb_neq. exact Hinit.
    + unfold replicate_idle, attemptHeartbeat_begin in Hiter.
      repeat case_match; simplify_eq.
Qed.

Lemma push_starts_only_when_needed_witness :
  let h := set_nextHead 5 (newCommitHook "standby" "db" RolePrimary) in
  role h = RolePrimary /\ shouldReplicate 20%Z h = true.
Proof.
  destruct (push_starts_only_when_needed false (inl 0) 20%Z false false
              (mkAttempt 5 0%Z None [])
              (set_nextHead 5 (newCommitHook "standby" "db" RolePrimary))
              (set_successChs [] (set_cancelReplicate (Some 0%nat)
                 (set_nextHead 5 (newCommitHook "standby" "db" RolePrimary))))
              newRuntime (snd (withCancel newRuntime)) eq_refl)
    as (_ & Hp & Hsr & _).
  split; assumption.
Defined.

(** When the worker cannot read the source root while a Primary hook needs
    its first head, or reads the zero hash, it is back at the loop test with
    the mutex still held and the hook still in need of that head: until the
    read succeeds no other goroutine gets into [Execute], [setRole],
    [NotifyWaitFailed] or [setWaitNotify]. *)
Theorem failed_root_read_keeps_mutex (srcRoot : Hash + error) (now : Time)
  (sh : bool) (s : sys) :
  wk s = Running sh -> shutdown (hook s) = false ->
  primaryNeedsInit (hook s) = true ->
  (forall r, srcRoot = inl r -> r = zeroHash) ->
  exists s',
    step (Iterate false srcRoot now) s = Some s'
    /\ wk s' = Running sh /\ shutdown (hook s') = false
    /\ primaryNeedsInit (hook s') = true
    /\ (forall root t, step (CallExecute root t) s' = None)
    /\ (forall r, step (CallSetRole r) s' = None)
    /\ step CallNotifyWaitFailed s' = None
    /\ (forall f, step (CallSetWaitNotify f) s' = None).
Proof.
  destruct s as [[h rt] k]. unfold hook. cbn [wk hk fst].
  intros -> Hsd Hinit Hzero.
  unfold step. cbn [wk hk]. unfold replicate_iter. rewrite Hsd, Hinit.
  eexists. split; [reflexivity |].
  unfold primaryNeedsInit in *. apply andb_true_iff in Hinit as [Hp Hz].
  cbn [wk hk fst]. repeat split; try reflexivity.
  - destruct srcRoot; exact Hsd.
  - destruct srcRoot as [r | e]; cbn; rewrite Hp; [| reflexivity].
    rewrite (Hzero r eq_refl). reflexivity.
Qed.

Lemma failed_root_read_keeps_mutex_witness :
  exists s',
    step (Iterate false (inr "i/o error") 7%Z)
      (mkSys (newCommitHook "standby" "db" RolePrimary, newRuntime) (Running false))
    = Some s'
    /\ wk s' = Running false
    /\ step (CallExecute (inl 5) 8%Z) s' = None.
Proof.
  destruct (failed_root_read_keeps_mutex (inr "i/o error") 7%Z false
              (mkSys (newCommitHook "standby" "db" RolePrimary, newRuntime)
                 (Running false)) eq_refl eq_refl eq_refl)
    as (s' & Hstep & Hwk & _ & _ & Hex & _).
  { intros r Hr. discriminate Hr. }
  exists s'. split; [exact Hstep | split; [exact Hwk | apply Hex]].
Defined.

Lemma step_exited (act : action) (s s' : sys) :
  wk s = Exited -> step act s = Some s' ->
  wk s' = Exited /\ closedChs (snd (hk s')) = closedChs (snd (hk s)).
Proof.
  destruct s as [[h rt] k]. cbn [wk hk]. intros -> Hstep.
  destruct act; cbn in Hstep; try discriminate; injection Hstep as <-;
    cbn [wk hk]; (split; [reflexivity |]).
  - destruct (Execute_chans root now h rt) as [[_ (Hc & _)] | (_ & _ & Hc & _)];
      exact Hc.
  - unfold setRole. repeat case_match; simplify_eq/=; reflexivity.
  - reflexivity.
  - unfold recordSuccessfulRemoteSrvCommit. case_match; reflexivity.
  - unfold setWaitNotify. repeat case_match; reflexivity.
  - reflexivity.
Qed.

(** Once [databaseWasDropped] has set the shutdown flag, the worker's next
    pass of the loop ends the goroutine as it is: it starts no push and
    closes none of the channels in [successChs]. And once the worker has
    ended, whatever is called on the hook, no channel is closed any more: a
    committer still waiting is released by its own context only. *)
Theorem dropped_worker_closes_nothing :
  (forall (ctxErr : bool) (srcRoot : Hash + error) (now : Time) (sh : bool) (s : sys),
     wk s = Running sh ->
     exists s1 s2,
       step CallDatabaseWasDropped s = Some s1
       /\ step (Iterate ctxErr srcRoot now) s1 = Some s2
       /\ wk s2 = Exited
       /\ successChs (hook s2) = successChs (hook s)
       /\ closedChs (snd (hk s2)) = closedChs (snd (hk s)))
  /\ (forall (acts : list action) (s : sys) (tr : list sys),
        wk s = Exited -> run acts s = Some tr ->
        forall s', s' ∈ tr ->
          wk s' = Exited /\ closedChs (snd (hk s')) = closedChs (snd (hk s))).
Proof.
  split.
  - intros ctxErr srcRoot now sh [[h rt] k]. cbn [wk]. intros ->.
    do 2 eexists. repeat split.
  - induction acts as [| act acts IH]; intros s tr Hwk Hrun s' Hin.
    + cbn in Hrun. injection Hrun as <-.
      apply list_elem_of_singleton in Hin as ->. auto.
    + cbn [run] in Hrun. destruct (step act s) as [s1 |] eqn:Hstep; [| discriminate].
      destruct (run acts s1) as [tr1 |] eqn:Hrun1; [| discriminate].
      injection Hrun as <-. apply elem_of_cons in Hin as [-> | Hin]; [auto |].
      destruct (step_exited act s s1 Hwk Hstep) as [Hwk1 Hcl1].
      destruct (IH s1 tr1 Hwk1 Hrun1 s' Hin) as [H1 H2].
      split; [exact H1 | congruence].
Qed.

Lemma dropped_worker_closes_nothing_witness :
  exists s1 s2,
    step CallDatabaseWasDropped
      (mkSys (set_successChs [0%nat] (newCommitHook "standby" "db" RolePrimary),
              snd (makeChan newRuntime)) (Running false)) = Some s1
    /\ step (Iterate false (inl 5) 7%Z) s1 = Some s2
    /\ wk s2 = Exited /\ successChs (hook s2) = [0%nat]
    /\ closedChs (snd (hk s2)) = [].
Proof.
  exact (proj1 dropped_worker_closes_nothing false (inl 5) 7%Z false
           (mkSys (set_successChs [0%nat] (newCommitHook "standby" "db" RolePrimary),
                   snd (makeChan newRuntime)) (Running false)) eq_refl).
Defined.

(** An idle pass of the loop on a caught-up hook releases every committer:
    it closes all channels of [successChs] and empties it, and if there was
    one to close it opens the circuit breaker again. On a hook that is not
    caught up it closes nothing and keeps [successChs] and the flag. *)
Theorem idle_pass_releases_waiters (sh : bool) (h : commithook) (rt : runtime) :
  let h' := fst (snd (replicate_idle sh (h, rt))) in
  let rt' := snd (snd (replicate_idle sh (h, rt))) in
  (isCaughtUp h = true ->
     successChs h' = []
     /\ (forall ch, ch ∈ successChs h -> isClosed ch rt' = true)
     /\ fastFailReplicationWait h'
        = (if (length (successChs h) =? 0)%nat
           then fastFailReplicationWait h else false))
  /\ (isCaughtUp h = false ->
        successChs h' = successChs h /\ closedChs rt' = closedChs rt
        /\ fastFailReplicationWait h' = fastFailReplicationWait h).
Proof.
  cbn zeta. unfold replicate_idle.
  set (rt1 := match waitNotify h with Some f => notify f rt | None => rt end).
  assert (H1 : closedChs rt1 = closedChs rt) by (subst rt1; destruct (waitNotify h); reflexivity).
  split; intros Hcu; rewrite Hcu.
  - destruct (successChs h) as [| ch0 chs] eqn:Hs.
    + cbn [length Nat.eqb negb andb].
      unfold attemptHeartbeat_begin, withCancel.
      repeat case_match; simplify_eq/=; repeat split; auto;
        intros ch Hin; inversion Hin.
    + cbn [length Nat.eqb negb andb].
      assert (Hcl : forall ch, ch ∈ ch0 :: chs ->
                isClosed ch (closeAll (ch0 :: chs) rt1) = true)
        by (intros ch Hin; apply isClosed_closeAll; exact Hin).
      unfold attemptHeartbeat_begin, withCancel.
      repeat case_match; simplify_eq/=; repeat split; auto.
  - rewrite andb_false_r.
    unfold attemptHeartbeat_begin, withCancel.
    repeat case_match; simplify_eq/=; repeat split; auto.
Qed.

Lemma idle_pass_releases_waiters_witness :
  let h := set_successChs [0%nat] (newCommitHook "standby" "db" RoleStandby) in
  let rt := snd (makeChan newRuntime) in
  successChs (fst (snd (replicate_idle false (h, rt)))) = []
  /\ isClosed 0 (snd (snd (replicate_idle false (h, rt)))) = true.
Proof.
  destruct (proj1 (idle_pass_releases_waiters false
              (set_successChs [0%nat] (newCommitHook "standby" "db" RoleStandby))
              (snd (makeChan newRuntime))) eq_refl) as (H1 & H2 & _).
  split; [exact H1 | apply H2; apply list_elem_of_here].
Defined.

(** A heartbeat is sent only by a Primary hook that has pushed a head and
    holds its destination, and only confirms that head: it commits
    [lastPushedHead] over itself. When it returns, the hook is as it was
    before, and the context made for it has been cancelled. *)
Theorem heartbeat_confirms_last_pushed (head : Hash) (d : DoltDB)
  (h : commithook) (rt : runtime) (w1 : world) :
  cancelReplicate h = None ->
  attemptHeartbeat_begin (h, rt) = Some (head, d, w1) ->
  role h = RolePrimary /\ head = lastPushedHead h /\ head <> zeroHash
  /\ destDB h = Some d
  /\ fst (attemptHeartbeat_finish w1) = h
  /\ cancelled (snd (attemptHeartbeat_finish w1)) = madeCtxs rt :: cancelled rt
  /\ closedChs (snd (attemptHeartbeat_finish w1)) = closedChs rt.
Proof.
  intros Hc. unfold attemptHeartbeat_begin, withCancel.
  destruct (decide (role h = RolePrimary)) as [Hp | Hp].
  2:{ rewrite bool_decide_eq_false_2 by exact Hp. discriminate. }
  rewrite bool_decide_eq_true_2 by exact Hp. cbn [negb].
  destruct (lastPushedHead h =? zeroHash) eqn:Hz; [discriminate |].
  destruct (destDB h) as [d0 |] eqn:Hd; [| discriminate].
  intros [= <- <- <-]. apply N.eqb_neq in Hz.
  repeat split; auto.
  unfold attemptHeartbeat_finish, deferred_cancelReplicate. cbn.
  destruct h; cbn in *. subst. reflexivity.
Qed.

Lemma heartbeat_confirms_last_pushed_witness :
  let h := set_destDB (Some 9%nat)
             (set_lastPushedHead 5 (set_nextHead 5
                (newCommitHook "standby" "db" RolePrimary))) in
  exists w1, attemptHeartbeat_begin (h, newRuntime) = Some (5, 9%nat, w1)
             /\ fst (attemptHeartbeat_finish w1) = h.
Proof.
  eexists. split; [reflexivity |].
  eapply (heartbeat_confirms_last_pushed 5 9%nat); reflexivity.
Defined.

(** [setWaitNotify] is a single slot: a callback is installed, and run
    once, only while none is installed; a second callback is refused and the
    hook keeps the first, until nil is set. The idle pass of the loop runs
    the installed callback once more each time. *)
Theorem setWaitNotify_single_slot (f g : Callback) (h : commithook) (rt : runtime) :
  waitNotify h = None ->
  let w1 := snd (setWaitNotify (Some f) (h, rt)) in
  fst (setWaitNotify (Some f) (h, rt)) = true
  /\ waitNotify (fst w1) = Some f /\ notified (snd w1) = f :: notified rt
  /\ setWaitNotify (Some g) w1 = (false, w1)
  /\ fst (setWaitNotify (Some g) (snd (setWaitNotify None w1))) = true
  /\ (forall sh, notified (snd (snd (replicate_idle sh w1)))
                 = f :: f :: notified rt).
Proof.
  intros Hw. cbn zeta. unfold setWaitNotify. rewrite Hw. cbn.
  repeat split.
  intros sh. unfold replicate_idle, attemptHeartbeat_begin, withCancel. cbn.
  assert (Hn : forall chs r, notified (closeAll chs r) = notified r).
  { induction chs as [| c chs IH]; intros r; [reflexivity |].
    cbn [closeAll fold_left]. fold (closeAll chs (close c r)).
    rewrite IH. reflexivity. }
  repeat case_match; simplify_eq/=; rewrite ?Hn; reflexivity.
Qed.

Lemma setWaitNotify_single_slot_witness :
  let w1 := snd (setWaitNotify (Some 3%nat)
                   (newCommitHook "standby" "db" RolePrimary, newRuntime)) in
  setWaitNotify (Some 4%nat) w1 = (false, w1).
Proof.
  apply (setWaitNotify_single_slot 3%nat 4%nat
           (newCommitHook "standby" "db" RolePrimary) newRuntime eq_refl).
Defined.

End WorkerProps.

Lemma setRole_chans (r : Role) (h : commithook) (rt : runtime) :
  successChs (fst (setRole r (h, rt))) = successChs h
  /\ sameChans rt (snd (setRole r (h, rt))).
Proof.
  unfold setRole, sameChans.
  destruct (cancelReplicate h) eqn:Hc; destruct r; cbn; rewrite ?Hc; cbn; auto.
Qed.

Lemma setWaitNotify_chans (f : option Callback) (h : commithook) (rt : runtime) :
  successChs (fst (snd (setWaitNotify f (h, rt)))) = successChs h
  /\ sameChans rt (snd (snd (setWaitNotify f (h, rt)))).
Proof.
  unfold setWaitNotify, sameChans.
  destruct f; destruct (waitNotify h); cbn; auto.
Qed.

Section PendingInvariant.

(** A property of the pending channels and the runtime that the hook's
    three ways of handling channels keep: leaving them alone, closing a part
    of them, making a new one when none is in [successChs]. *)
Variable P : list Chan -> runtime -> Prop.

Hypothesis P_sameChans : forall l rt rt', sameChans rt rt' -> P l rt -> P l rt'.
Hypothesis P_closeAll : forall keep gone rt,
  P (keep ++ gone) rt -> P keep (closeAll gone rt).
Hypothesis P_makeChan : forall stolen rt rt',
  P stolen rt -> closedChs rt' = closedChs rt -> madeChs rt' = S (madeChs rt) ->
  doubleClose rt' = doubleClose rt -> P (madeChs rt :: stolen) rt'.

#[local] Arguments attemptReplicate_finish : simpl never.
#[local] Arguments attemptReplicate_destDBFailed : simpl never.
#[local] Arguments replicate_iter : simpl never.
#[local] Arguments Execute : simpl never.

Lemma step_pending (act : action) (s s' : sys) :
  P (pending s) (snd (hk s)) -> step act s = Some s' ->
  P (pending s') (snd (hk s')).
Proof.
  intros Hok Hstep. destruct s as [[h rt] k].
  unfold pending, hook in *. cbn [hk wk fst snd] in *.
  destruct act.
  - (* Start *)
    unfold step in Hstep. cbn [wk hk] in Hstep.
    destruct k; try discriminate. injection Hstep as <-. exact Hok.
  - (* Iterate *)
    unfold step in Hstep. cbn [wk hk] in Hstep.
    destruct k; try discriminate.
    pose proof (replicate_iter_chans ctxErr srcRoot now shouldHeartbeat h rt) as H.
    destruct (replicate_iter ctxErr srcRoot now shouldHeartbeat (h, rt)) as [k' [h' rt']].
    injection Hstep as <-. cbn [hk wk fst snd] in *.
    rewrite app_nil_r in Hok.
    destruct H as [(a & l & -> & Ha & Hs & Hrt) | (Hk & [[Hs Hrt] | [Hs Hrt]])].
    + rewrite Hs, Ha. exact (P_sameChans _ _ _ Hrt Hok).
    + assert (Hk' : match k' with Pushing a _ => stolenChs a | _ => [] end = [])
        by (destruct k'; try reflexivity; discriminate).
      rewrite Hk', Hs, app_nil_r. exact (P_sameChans _ _ _ Hrt Hok).
    + assert (Hk' : match k' with Pushing a _ => stolenChs a | _ => [] end = [])
        by (destruct k'; try reflexivity; discriminate).
      rewrite Hk', Hs. cbn [app].
      apply (P_sameChans _ _ _ Hrt).
      apply (P_closeAll [] (successChs h) rt). exact Hok.
  - (* DestDBFailed *)
    unfold step in Hstep. cbn [wk hk] in Hstep.
    destruct k as [| | a l | | |]; try discriminate.
    destruct (localDestDB a); [discriminate |]. injection Hstep as <-.
    destruct (attemptReplicate_destDBFailed_chans err now a h rt) as [Hs Hrt].
    assert (Hk : match afterAttempt l with Pushing a _ => stolenChs a | _ => [] end = [])
      by (destruct l; reflexivity).
    cbn [hk wk fst snd]. rewrite Hk, Hs, app_nil_r.
    exact (P_sameChans _ _ _ Hrt Hok).
  - (* DestDBFetched *)
    unfold step in Hstep. cbn [wk hk] in Hstep.
    destruct k as [| | a l | | |]; try discriminate.
    destruct (localDestDB a); [discriminate |].
    unfold attemptReplicate_fetched in Hstep. injection Hstep as <-.
    exact Hok.
  - (* RemoteDone *)
    unfold step in Hstep. cbn [wk hk] in Hstep.
    destruct k as [| | a l | | |]; try discriminate.
    destruct (localDestDB a); [| discriminate]. injection Hstep as <-.
    assert (Hk : match afterAttempt l with Pushing a _ => stolenChs a | _ => [] end = [])
      by (destruct l; reflexivity).
    cbn [hk wk fst snd]. rewrite Hk, app_nil_r.
    destruct (attemptReplicate_finish_chans (pushErr r (toPush a)) now a h rt)
      as [[Hs Hrt] | [Hs Hrt]]; rewrite Hs.
    + apply (P_sameChans _ _ _ Hrt).
      apply (P_closeAll (successChs h) (stolenChs a) rt). exact Hok.
    + exact (P_sameChans _ _ _ Hrt Hok).
  - (* HeartbeatDone *)
    unfold step in Hstep. cbn [wk hk] in Hstep.
    destruct k; try discriminate. injection Hstep as <-.
    unfold attemptHeartbeat_finish, deferred_cancelReplicate.
    destruct (cancelReplicate h); cbn [hk wk fst snd];
      refine (P_sameChans _ rt _ _ Hok); repeat split.
  - (* Wake *)
    unfold step in Hstep. cbn [wk hk] in Hstep.
    destruct k; try discriminate. injection Hstep as <-. exact Hok.
  - (* Execute *)
    unfold step, locked in Hstep.
    assert (Hwk : wk s' = k /\ hk s' = snd (Execute root now (h, rt))).
    { cbn [wk hk] in Hstep. destruct k; cbn in Hstep; simplify_eq; auto. }
    destruct Hwk as [-> ->].
    destruct (Execute_chans root now h rt) as [[Hs Hrt] | (Hs & Hs' & Hc & Hm & Hd)].
    + rewrite Hs. exact (P_sameChans _ _ _ Hrt Hok).
    + rewrite Hs'. rewrite Hs in Hok. cbn [app] in *.
      exact (P_makeChan _ rt _ Hok Hc Hm Hd).
  - (* setRole *)
    unfold step, locked in Hstep.
    assert (Hwk : wk s' = k /\ hk s' = setRole r (h, rt)).
    { cbn [wk hk] in Hstep. destruct k; cbn in Hstep; simplify_eq; auto. }
    destruct Hwk as [-> ->].
    destruct (setRole_chans r h rt) as [Hs Hrt].
    rewrite Hs. exact (P_sameChans _ _ _ Hrt Hok).
  - (* NotifyWaitFailed *)
    unfold step, locked in Hstep.
    assert (Hwk : wk s' = k /\ hk s' = NotifyWaitFailed (h, rt)).
    { cbn [wk hk] in Hstep. destruct k; cbn in Hstep; simplify_eq; auto. }
    destruct Hwk as [-> ->]. exact Hok.
  - (* recordSuccessfulRemoteSrvCommit *)
    unfold step, locked in Hstep.
    assert (Hwk : wk s' = k /\ hk s' = recordSuccessfulRemoteSrvCommit now (h, rt)).
    { cbn [wk hk] in Hstep. destruct k; cbn in Hstep; simplify_eq; auto. }
    destruct Hwk as [-> ->]. unfold recordSuccessfulRemoteSrvCommit.
    repeat case_match; simplify_eq/=; exact Hok.
  - (* setWaitNotify *)
    unfold step, locked in Hstep.
    assert (Hwk : wk s' = k /\ hk s' = snd (setWaitNotify f (h, rt))).
    { cbn [wk hk] in Hstep. destruct k; cbn in Hstep; simplify_eq; auto. }
    destruct Hwk as [-> ->].
    destruct (setWaitNotify_chans f h rt) as [Hs Hrt].
    rewrite Hs. exact (P_sameChans _ _ _ Hrt Hok).
  - (* databaseWasDropped *)
    unfold step in Hstep. cbn [wk hk] in Hstep.
    assert (Hs' : s' = mkSys (databaseWasDropped (h, rt)) k)
      by (destruct k; congruence).
    subst s'. refine (P_sameChans _ rt _ _ Hok). repeat split.
Qed.

Lemma run_pending (acts : list action) (s0 : sys) (tr : list sys) :
  P (pending s0) (snd (hk s0)) -> run acts s0 = Some tr ->
  forall s, s ∈ tr -> P (pending s) (snd (hk s)).
Proof.
  revert s0 tr. induction acts as [| act acts IH]; intros s0 tr Hok Hrun s Hin.
  - cbn in Hrun. injection Hrun as <-.
    apply list_elem_of_singleton in Hin as ->. exact Hok.
  - cbn [run] in Hrun. destruct (step act s0) as [s1 |] eqn:Hstep; [| discriminate].
    destruct (run acts s1) as [tr1 |] eqn:Hrun1; [| discriminate].
    injection Hrun as <-. apply elem_of_cons in Hin as [-> | Hin]; [exact Hok |].
    exact (IH s1 tr1 (step_pending act s0 s1 Hok Hstep) Hrun1 s Hin).
Qed.

End PendingInvariant.
